(** * ShockNotebookManager: a notebook index over SHOCK storage

    A shallow embedding of
    [IPython/frontend/html/notebook/shocknbmanager.py] and the properties
    of the reconciliation algorithm ([load_notebook_names]), of the
    mapping operations and of the SHOCK client ([getShock], [postShock]).

    The Python methods mutate [self] and raise exceptions; they are
    embedded in a state-and-exception monad in which a raised exception
    keeps the mutations made so far, as in Python. *)

From Stdlib Require Import String Ascii ZArith List OrderedTypeEx.
From stdpp Require Import gmap strings list fin_maps sorting.

Open Scope string_scope.
Open Scope Z_scope.

(** ** The Python runtime the module relies on *)

Module Py.

(** The exceptions that the module or the libraries it calls can raise.
    [HTTPError] is tornado's [web.HTTPError(status_code, log_message)];
    the message is kept without its formatted arguments.
    [RequestsHTTPError] is what [raise_for_status()] of the requests
    library raises on a response that is not [ok]. *)
Inductive exn : Type :=
| HTTPError (status_code : Z) (log_message : string)
| RequestsHTTPError
| KeyError (key : string)
| IndexError
| TypeError
| ValueError
| AttributeError (name : string)
| UnboundLocalError (name : string)
| OtherError (what : string).

Inductive result (A : Type) : Type :=
| Ok (a : A)
| Raise (e : exn).
Arguments Ok {A} a.
Arguments Raise {A} e.

(** A computation over a mutable state [S]: it ends with a value or with
    an exception, and in both cases with the state it has reached. *)
Definition M (S A : Type) : Type := S -> result A * S.

Definition ret {S A} (a : A) : M S A := fun s => (Ok a, s).

Definition bind {S A B} (c : M S A) (k : A -> M S B) : M S B :=
  fun s => match c s with
           | (Ok a, s') => k a s'
           | (Raise e, s') => (Raise e, s')
           end.

Definition raise {S A} (e : exn) : M S A := fun s => (Raise e, s).

(** [try: body except Exception as e: handler e]. *)
Definition try_except {S A} (body : M S A) (handler : exn -> M S A) : M S A :=
  fun s => match body s with
           | (Ok a, s') => (Ok a, s')
           | (Raise e, s') => handler e s'
           end.

Definition gets {S A} (f : S -> A) : M S A := fun s => (Ok (f s), s).

Definition modify {S} (f : S -> S) : M S unit := fun s => (Ok tt, f s).

(** Reading a local variable that may not have been assigned. *)
Definition local {S A} (name : string) (v : option A) : M S A :=
  match v with
  | Some a => ret a
  | None => raise (UnboundLocalError name)
  end.

(** [d[key]] on a dict. *)
Definition getitem {S A} (d : gmap string A) (key : string) : M S A :=
  match d !! key with
  | Some a => ret a
  | None => raise (KeyError key)
  end.

(** [for x in l: body x]. *)
Fixpoint for_each {S A} (l : list A) (body : A -> M S unit) : M S unit :=
  match l with
  | [] => ret tt
  | x :: l' => bind (body x) (fun _ => for_each l' body)
  end.

(** A loop that threads a local accumulator. *)
Fixpoint fold_each {S A B} (l : list A) (body : B -> A -> M S B) (acc : B) : M S B :=
  match l with
  | [] => ret acc
  | x :: l' => bind (body acc x) (fun acc' => fold_each l' body acc')
  end.

(** Truth value of a string: only the empty string is false. *)
Definition truthy (s : string) : bool :=
  match s with
  | EmptyString => false
  | String _ _ => true
  end.

(** Truth value of a JSON field that is a string or [null]. *)
Definition truthy_opt (v : option string) : bool :=
  match v with
  | Some s => truthy s
  | None => false
  end.

(** *** [sorted(l, key=..., reverse=...)]

    Python's sort is stable, also with [reverse=True]: elements with equal
    keys keep their original order. The result of a stable sort is
    determined by the input (lemma [sorted_unique] below), so it is given
    here by insertion from the right, which places an element before the
    elements that follow it in the input and whose key is not better.
    Strings are compared character by character ([String.leb]). *)
Section Sorted.
Context {A K : Type} (leb : K -> K -> bool) (key : A -> K) (reverse : bool).

Definition before (x y : A) : bool :=
  if reverse then leb (key y) (key x) else leb (key x) (key y).

Fixpoint insert_sorted (x : A) (l : list A) : list A :=
  match l with
  | [] => [x]
  | y :: l' => if before x y then x :: y :: l' else y :: insert_sorted x l'
  end.

Fixpoint sorted (l : list A) : list A :=
  match l with
  | [] => []
  | x :: l' => insert_sorted x (sorted l')
  end.
End Sorted.

(** [sorted] with a key function that can raise: the keys are computed
    first, one per element and in order, then the list is sorted. *)
Fixpoint keys_of {S A K} (key : A -> M S K) (l : list A) : M S (list (K * A)) :=
  match l with
  | [] => ret []
  | x :: l' =>
      bind (key x) (fun k =>
      bind (keys_of key l') (fun kl => ret ((k, x) :: kl)))
  end.

Definition sorted_by {S A K} (leb : K -> K -> bool) (key : A -> M S K)
    (reverse : bool) (l : list A) : M S (list A) :=
  bind (keys_of key l) (fun kl => ret (snd <$> sorted leb fst reverse kl)).

(** *** Iteration over a dict

    A Python 2 dict is iterated in the order of its hash table, which the
    program does not control. The order is given by a rank on the keys:
    every order of the keys of a dict is the order of some rank. *)
Definition dict_items {A} (rank : string -> N) (d : gmap string A)
    : list (string * A) :=
  sorted N.leb (fun kv => rank (fst kv)) false (map_to_list d).

End Py.

Export Py.

Declare Scope py_scope.
Delimit Scope py_scope with py.
Notation "x <- c ;; k" := (bind c (fun x => k))
  (at level 100, c at next level, right associativity) : py_scope.
Notation "c ;;; k" := (bind c (fun _ => k))
  (at level 100, right associativity) : py_scope.
Open Scope py_scope.

(** ** Data *)

(** A SHOCK node as the store returns it: [node['id']],
    [node['file']['size']] and the dict [node['attributes']]. Attribute
    values are strings. *)
Record node : Type := Node {
  node_id : string;
  file_size : Z;
  attributes : gmap string string
}.

(** The body of a SHOCK answer, [{'S': status, 'D': data, 'E': error}]. A
    field is [None] when its key is missing; the error is a string or
    [null]. *)
Record envelope (D : Type) : Type := Envelope {
  rj_S : option Z;
  rj_D : option D;
  rj_E : option (option string)
}.
Arguments Envelope {D} _ _ _.
Arguments rj_S {D} _.
Arguments rj_D {D} _.
Arguments rj_E {D} _.

(** A response of the requests library: [r.ok], [r.text] and [r.json],
    which is [None] unless the body is a JSON object. *)
Record response (D : Type) : Type := Response {
  ok : bool;
  text : string;
  json : option (envelope D)
}.
Arguments Response {D} _ _ _.
Arguments ok {D} _.
Arguments text {D} _.
Arguments json {D} _.

Inductive outcome (D : Type) : Type :=
| Fails (e : exn)
| Responds (r : response D).
Arguments Fails {D} e.
Arguments Responds {D} r.

(** The data of a query: [null] or a list of nodes. *)
Definition listing : Type := option (list node).

(** A notebook object: its metadata, which is read and written by
    attribute, and the rest of the document. *)
Record notebook : Type := Notebook {
  metadata : gmap string string;
  worksheets : string
}.

Record datetime : Type := Datetime {
  year : Z; month : Z; day : Z;
  hour : Z; minute : Z; second : Z; microsecond : Z
}.

(** What [read_notebook_object] returns first: a [datetime] parsed from
    the [created] attribute, or the string [datetime.now().isoformat()]. *)
Inductive last_modified : Type :=
| Parsed (d : datetime)
| IsoNow (s : string).

(** One element of the list of [list_notebooks]. *)
Record nb_info : Type := NbInfo {
  notebook_id : string;
  name : string
}.

(** A request sent to the SHOCK server. *)
Inductive request : Type :=
| Get (url : string)
| Post (url : string) (file : string * string) (attrs : string * string).

(** The manager object. [sent] is not a field of the class: it records the
    requests that the object has issued so far, the latest first. *)
Record manager : Type := Manager {
  shock_url : string;
  shock_user : string;
  mapping : gmap string string;
  shock_map : gmap string node;
  sent : list request
}.

Definition set_mapping (f : gmap string string -> gmap string string)
    (st : manager) : manager :=
  Manager (shock_url st) (shock_user st) (f (mapping st)) (shock_map st) (sent st).

Definition set_shock_map (f : gmap string node -> gmap string node)
    (st : manager) : manager :=
  Manager (shock_url st) (shock_user st) (mapping st) (f (shock_map st)) (sent st).

Definition log_request (r : request) (st : manager) : manager :=
  Manager (shock_url st) (shock_user st) (mapping st) (shock_map st) (r :: sent st).

(** A manager as it is created. Its [mapping] is a dict of its own, empty.
    Its [shock_map] is not: it is the class attribute [shock_map = {}], one
    dict for all the managers of the process, which
    [write_notebook_object] and [delete_notebook_id] change in place until
    [load_notebook_names] binds a dict of its own to the manager.
    [class_shock_map] is what the shared dict holds when the manager is
    created. From its first rebuild on, both maps of a manager are its
    own. *)
Definition created_manager (url user : string)
    (class_shock_map : gmap string node) : manager :=
  Manager url user ∅ class_shock_map [].

(** The first manager of a process: the shared dict is still empty. *)
Definition new_manager (url user : string) : manager :=
  created_manager url user ∅.

(** The collaborators of one call: the transport ([requests.get],
    [requests.post]), the codec ([current.reads], [current.writes],
    [json.dumps]), [dateutil.parser.parse], the clock
    ([datetime.datetime.now().isoformat()]), the identifier that
    [uuid.uuid4()] returns, and the order in which dicts are iterated. *)
Record Env : Type := {
  requests_get : string -> outcome listing;
  requests_post : string -> string * string -> string * string -> outcome node;
  current_reads : string -> option notebook;
  current_writes : notebook -> option string;
  json_dumps : gmap string string -> string;
  dateutil_parse : string -> option datetime;
  now_isoformat : string;
  uuid4 : string;
  dict_rank : string -> N
}.

(** ** The SHOCK client *)

(** [rget.raise_for_status()]: raises unless the response is [ok]. *)
Definition raise_for_status {D} (r : response D) : M manager unit :=
  if ok r then ret tt else raise RequestsHTTPError.

(** The test [rj and isinstance(rj, dict) and
    all([key in rj for key in ['S','D','E']])]. *)
Definition valid_envelope {D} (rj : option (envelope D)) : bool :=
  match rj with
  | Some e => bool_decide (is_Some (rj_S e)) && bool_decide (is_Some (rj_D e))
              && bool_decide (is_Some (rj_E e))
  | None => false
  end.

(** [rj['E']], [rj['S']] and [rj['D']]. *)
Definition envelope_field {D A} (field : envelope D -> option A) (key : string)
    (rj : option (envelope D)) : M manager A :=
  match rj with
  | Some e => match field e with
              | Some v => ret v
              | None => raise (KeyError key)
              end
  | None => raise TypeError
  end.

(** The end of [getShock] and of [postShock]:
    [if rj['E']: raise web.HTTPError(rj['S'], 'SHOCK error: '+rj['E'])]
    then [return rj['D']]. *)
Definition envelope_data {D} (rj : option (envelope D)) : M manager D :=
  err <- envelope_field rj_E "E" rj ;;
  if truthy_opt err then
    status <- envelope_field rj_S "S" rj ;;
    raise (HTTPError status ("SHOCK error: " ++ default "" err))
  else envelope_field rj_D "D" rj.

(** [getShock(url, format)]: one GET; with the format ['json'] the answer
    is checked and its data returned, otherwise the body is returned. *)
Definition getShock (env : Env) (url format : string)
    : M manager (string + listing) :=
  rget <- try_except
            (modify (log_request (Get url)) ;;;
             match requests_get env url with
             | Responds r => ret r
             | Fails e => raise e
             end)
            (fun e => raise (HTTPError 400 "Unable to connect to SHOCK server")) ;;
  (* the [try] has ended without an exception: [e] was never assigned *)
  let e : option exn := None in
  (if negb (ok rget && truthy (text rget)) then
     raise_for_status rget ;;;
     raise (HTTPError 400 "Unable to connect to SHOCK server")
   else ret tt) ;;;
  if String.eqb format "json" then
    let rj := json rget in
    (if negb (valid_envelope rj) then
       _ <- local "e" e ;;
       raise (HTTPError 415 "Return data not valid SHOCK format")
     else ret tt) ;;;
    d <- envelope_data rj ;;
    ret (inr d)
  else ret (inl (text rget)).

(** [postShock(url, name, data, attr)]: one POST of the document and of its
    attributes as two files; the answer is checked and its data returned. *)
Definition postShock (env : Env) (url name data attr : string)
    : M manager node :=
  let files := ((name ++ ".ipynb", data), (name ++ "_metadata.json", attr)) in
  rpost <- try_except
             (modify (log_request (Post url (fst files) (snd files))) ;;;
              match requests_post env url (fst files) (snd files) with
              | Responds r => ret r
              | Fails e => raise e
              end)
             (fun e => raise (HTTPError 400 "Unable to connect to SHOCK server")) ;;
  let rj := json rpost in
  (if negb (ok rpost && valid_envelope rj) then
     raise_for_status rpost ;;;
     raise (HTTPError 400 "Unable to POST to SHOCK server")
   else ret tt) ;;;
  envelope_data rj.

(** ** The notebook manager *)

(** The first loop of [load_notebook_names]: nodes without a file and nodes
    tagged as deleted are skipped, the others are appended to the versions
    of their uuid ([nb_vers] is a [defaultdict(list)]). *)
Definition skipped (n : node) : bool :=
  (file_size n =? 0) || bool_decide (is_Some (attributes n !! "deleted")).

Definition collect_version (nb_vers : gmap string (list node)) (n : node)
    : M manager (gmap string (list node)) :=
  if skipped n then ret nb_vers
  else
    uuid <- getitem (attributes n) "uuid" ;;
    ret (<[uuid := (default [] (nb_vers !! uuid) ++ [n])%list]> nb_vers).

(** The body of the second loop: the versions of one uuid are sorted by
    [created], latest first, and the first one is recorded in both maps. *)
Definition record_latest (entry : string * list node) : M manager unit :=
  let (uuid, vers) := entry in
  nodes <- sorted_by String.leb (fun x => getitem (attributes x) "created") true vers ;;
  match nodes with
  | [] => raise IndexError
  | latest :: _ =>
      nb_name <- getitem (attributes latest) "name" ;;
      modify (set_mapping (insert uuid nb_name)) ;;;
      modify (set_shock_map (insert uuid latest))
  end.

(** The URL of the listing: [shock_url+'/node?query&type=ipynb'], followed
    by ['&user='+shock_user] when a user is configured. *)
Definition query_url (st : manager) : string :=
  let url := shock_url st ++ "/node?query&type=ipynb" in
  if truthy (shock_user st) then url ++ "&user=" ++ shock_user st else url.

Definition load_notebook_names (env : Env) : M manager unit :=
  modify (set_mapping (fun _ => ∅)) ;;;
  modify (set_shock_map (fun _ => ∅)) ;;;
  query_url <- gets query_url ;;
  query_res <- getShock env query_url "json" ;;
  nb_vers <- match query_res with
             | inr None => ret ∅
             | inr (Some nodes) => fold_each nodes collect_version ∅
             | inl _ => raise TypeError
             end ;;
  for_each (dict_items (dict_rank env) nb_vers) record_latest.

Definition list_notebooks (env : Env) : M manager (list nb_info) :=
  m <- gets mapping ;;
  let data := (fun kv => NbInfo (fst kv) (snd kv)) <$> dict_items (dict_rank env) m in
  ret (sorted String.leb name false data).

(** [del d[key]]. *)
Definition delitem {A} (d : gmap string A) (key : string)
    : M manager (gmap string A) :=
  match d !! key with
  | Some _ => ret (delete key d)
  | None => raise (KeyError key)
  end.

Definition delete_notebook_id (id : string) : M manager unit :=
  m <- gets mapping ;;
  m' <- delitem m id ;;
  modify (set_mapping (fun _ => m')) ;;;
  sm <- gets shock_map ;;
  sm' <- delitem sm id ;;
  modify (set_shock_map (fun _ => sm')).

Definition notebook_exists (id : string) (st : manager) : bool :=
  bool_decide (is_Some (mapping st !! id))
  && bool_decide (is_Some (shock_map st !! id)).

Definition read_notebook_object (env : Env) (id : string)
    : M manager (last_modified * notebook) :=
  found <- gets (notebook_exists id) ;;
  (if negb found then raise (HTTPError 404 "Notebook does not exist") else ret tt) ;;;
  node_data <- try_except
      (url <- gets shock_url ;;
       sm <- gets shock_map ;;
       n <- getitem sm id ;;
       let node_url := url ++ "/node/" ++ node_id n ++ "?download" in
       res <- getShock env node_url "data" ;;
       match res with
       | inl txt => ret txt
       | inr _ => raise TypeError
       end)
      (fun _ => raise (HTTPError 500 "Notebook cannot be read")) ;;
  nb <- match current_reads env node_data with
        | Some nb => ret nb
        | None => raise (HTTPError 500 "Unreadable JSON notebook")
        end ;;
  sm <- gets shock_map ;;
  n <- getitem sm id ;;
  dt <- getitem (attributes n) "created" ;;
  lm <- (if truthy dt then
           match dateutil_parse env dt with
           | Some d => ret (Parsed d)
           | None => raise ValueError
           end
         else ret (IsoNow (now_isoformat env))) ;;
  ret (lm, nb).

(** Modelled from the spec: [new_notebook_id] is a method of the base class
    [NotebookManager] (module [nbmanager]), which is not part of the
    sources at hand. The spec gives it as the id generator,
    [NewId(name) -> documentId], opaque and collision-free, and says that a
    new document exists once it has been assigned an id: the identifier that
    the generator returns is entered in [mapping] under the name. *)
Definition new_notebook_id (env : Env) (nb_name : string) : M manager string :=
  let id := uuid4 env in
  modify (set_mapping (insert id nb_name)) ;;;
  ret id.

(** [write_notebook_object] receives the notebook object by reference and
    assigns to its metadata: it runs over the pair of the caller's object
    and of the manager. *)
Definition on_self {A} (c : M manager A) : M (notebook * manager) A :=
  fun s => let (r, st) := c (snd s) in (r, (fst s, st)).

Definition setattr_metadata (attr value : string) : M (notebook * manager) unit :=
  modify (fun s => (Notebook (<[attr := value]> (metadata (fst s)))
                             (worksheets (fst s)), snd s)).

Definition getattr_metadata (attr : string) : M (notebook * manager) string :=
  nb <- gets fst ;;
  match metadata nb !! attr with
  | Some v => ret v
  | None => raise (AttributeError attr)
  end.

Definition write_notebook_object (env : Env) (notebook_id : option string)
    : M (notebook * manager) string :=
  new_name <- try_except (getattr_metadata "name")
                (fun _ => raise (HTTPError 400 "Missing notebook name")) ;;
  notebook_id <- try_except
      (notebook_id <- match notebook_id with
                      | None => on_self (new_notebook_id env new_name)
                      | Some id => ret id
                      end ;;
       setattr_metadata "created" (now_isoformat env) ;;;
       user <- on_self (gets shock_user) ;;
       setattr_metadata "user" (if truthy user then user else "public") ;;;
       setattr_metadata "type" "ipynb" ;;;
       setattr_metadata "uuid" notebook_id ;;;
       ret notebook_id)
      (fun _ => raise (HTTPError 400 "Unexpected error setting notebook attributes")) ;;
  m <- on_self (gets mapping) ;;
  (if bool_decide (is_Some (m !! notebook_id)) then ret tt
   else raise (HTTPError 404 "Notebook does not exist")) ;;;
  shock_node <- try_except
      (nb <- gets fst ;;
       data <- match current_writes env nb with
               | Some d => ret d
               | None => raise (OtherError "current.writes")
               end ;;
       let attr := json_dumps env (metadata nb) in
       url <- on_self (gets shock_url) ;;
       on_self (postShock env (url ++ "/node") new_name data attr))
      (fun _ => raise (HTTPError 400 "Unexpected error while saving notebook")) ;;
  on_self (modify (set_mapping (insert notebook_id new_name))) ;;;
  on_self (modify (set_shock_map (insert notebook_id shock_node))) ;;;
  ret notebook_id.

Definition delete_notebook (id : string) : M manager unit :=
  found <- gets (notebook_exists id) ;;
  (if negb found then raise (HTTPError 404 "Notebook does not exist") else ret tt) ;;;
  delete_notebook_id id.


(** ** Vocabulary of the properties *)

(** A node that a rebuild keeps for a uuid: it has that uuid, it has a
    file and it is not tagged as deleted. *)
Definition kept (uuid : string) (n : node) : Prop :=
  skipped n = false /\ attributes n !! "uuid" = Some uuid.

#[global] Instance kept_dec (uuid : string) (n : node) : Decision (kept uuid n).
Proof. unfold kept. apply _. Defined.

(** The versions that a rebuild keeps for a uuid, in the order of the
    listing. *)
Definition versions (uuid : string) (nodes : list node) : list node :=
  filter (kept uuid) nodes.

(** The uuids of the nodes that a rebuild keeps. *)
Definition kept_uuids (nodes : list node) : list string :=
  omap (fun n => attributes n !! "uuid") (filter (fun n => skipped n = false) nodes).

(** The data model of a remote object: its attributes contain at least
    [uuid], [name] and [created]. *)
Definition well_formed (n : node) : Prop :=
  is_Some (attributes n !! "uuid") /\ is_Some (attributes n !! "name")
  /\ is_Some (attributes n !! "created").

(** The [created] attribute as a sort key. *)
Definition created (n : node) : string := default "" (attributes n !! "created").

(** The first of the versions in the order of [sorted], latest first. *)
Definition latest (vers : list node) : option node :=
  head (sorted String.leb created true vers).

(** [w] is the latest version of [uuid] in a listing: it is kept for the
    uuid, no kept version of the uuid is created later, and those listed
    before it are created strictly earlier. *)
Definition latest_of (uuid : string) (nodes : list node) (w : node) : Prop :=
  exists l1 l2, nodes = (l1 ++ w :: l2)%list /\ kept uuid w
    /\ (forall n, n ∈ l1 -> kept uuid n -> String.ltb (created n) (created w) = true)
    /\ (forall n, n ∈ l2 -> kept uuid n -> String.leb (created n) (created w) = true).

(** The manager when [load_notebook_names] asks for the listing: both maps
    have been emptied. *)
Definition cleared (st : manager) : manager :=
  set_shock_map (fun _ => ∅) (set_mapping (fun _ => ∅) st).

(** The notebook object once [write_notebook_object] has assigned
    [created], [user], [type] and [uuid] to its metadata. *)
Definition stamped (env : Env) (user id : string) (nb : notebook) : notebook :=
  Notebook
    (<["uuid" := id]>
       (<["type" := "ipynb"]>
          (<["user" := if truthy user then user else "public"]>
             (<["created" := now_isoformat env]> (metadata nb)))))
    (worksheets nb).

(** A response that carries the data [d]: it is [ok], its body is not
    empty, its envelope has the three fields and no error. *)
Definition answers {D} (r : response D) (d : D) : Prop :=
  ok r = true /\ truthy (text r) = true /\
  exists status err, json r = Some (Envelope (Some status) (Some d) (Some err))
                     /\ truthy_opt err = false.

(** An envelope in which one of the three fields is missing. *)
Definition field_missing {D} (e : envelope D) : Prop :=
  rj_S e = None \/ rj_D e = None \/ rj_E e = None.

(** The two maps have the same keys. *)
Definition keys_agree (st : manager) : Prop :=
  dom (mapping st) = dom (shock_map st).

(** The order that the spec gives for [list_notebooks]: by name, then by
    identifier. *)
Definition name_then_id (a b : nb_info) : Prop :=
  String.ltb (name a) (name b) = true
  \/ (name a = name b /\ String.leb (notebook_id a) (notebook_id b) = true).

(** The public operations, and a run of one of them on the manager. *)
Inductive operation : Type :=
| LoadNotebookNames
| ListNotebooks
| NotebookExists (id : string)
| ReadNotebookObject (id : string)
| WriteNotebookObject (nb : notebook) (id : option string)
| DeleteNotebook (id : string).

Definition completed {A} (r : result A) : bool :=
  match r with Ok _ => true | Raise _ => false end.

(** [run env o st] is whether the operation returns (it does not raise),
    and the manager afterwards. *)
Definition run (env : Env) (o : operation) (st : manager) : bool * manager :=
  match o with
  | LoadNotebookNames =>
      let (r, st') := load_notebook_names env st in (completed r, st')
  | ListNotebooks =>
      let (r, st') := list_notebooks env st in (completed r, st')
  | NotebookExists id => (true, st)
  | ReadNotebookObject id =>
      let (r, st') := read_notebook_object env id st in (completed r, st')
  | WriteNotebookObject nb id =>
      let (r, s') := write_notebook_object env id (nb, st) in (completed r, snd s')
  | DeleteNotebook id =>
      let (r, st') := delete_notebook id st in (completed r, st')
  end.

(** The operations of a session, one after the other, each with the
    collaborators of its call. *)
Fixpoint run_all (calls : list (Env * operation)) (st : manager) : manager :=
  match calls with
  | [] => st
  | (env, o) :: calls' => run_all calls' (snd (run env o st))
  end.

(** A session in which no write of a new document fails: every operation
    either returns, or is not a write without an identifier. *)
Definition new_document_write (o : operation) : Prop :=
  exists nb, o = WriteNotebookObject nb None.

Fixpoint no_failed_new_write (calls : list (Env * operation)) (st : manager) : Prop :=
  match calls with
  | [] => True
  | (env, o) :: calls' =>
      (fst (run env o st) = true \/ ~ new_document_write o)
      /\ no_failed_new_write calls' (snd (run env o st))
  end.

(** ** Sample collaborators and values *)

Definition sample_node (id : string) (size : Z) (attrs : list (string * string)) : node :=
  Node id size (list_to_map attrs).

Definition january : node :=
  sample_node "o1" 10 [("uuid", "u1"); ("name", "draft"); ("created", "2012-01-01T00:00:00")].
Definition june : node :=
  sample_node "o2" 12 [("uuid", "u1"); ("name", "final"); ("created", "2012-06-01T00:00:00")].
Definition placeholder : node :=
  sample_node "o3" 0 [("uuid", "u2"); ("name", "empty"); ("created", "2013-01-01T00:00:00")].
Definition tombstone : node :=
  sample_node "o4" 5 [("uuid", "u3"); ("name", "gone"); ("created", "2013-01-01T00:00:00");
                      ("deleted", "1")].
Definition undated : node :=
  sample_node "o5" 7 [("uuid", "u5"); ("name", "undated")].
Definition blank_date : node :=
  sample_node "o6" 7 [("uuid", "u6"); ("name", "blank"); ("created", "")].

Definition notes_b : node :=
  sample_node "o7" 3 [("uuid", "b"); ("name", "notes"); ("created", "2012-03-01T00:00:00")].
Definition notes_c : node :=
  sample_node "o8" 3 [("uuid", "c"); ("name", "notes"); ("created", "2012-03-02T00:00:00")].

(** An answer of the server with data [d], and answers that lack a field. *)
Definition answer {D} (d : D) : response D :=
  Response true "{...}" (Some (Envelope (Some 200) (Some d) (Some None))).

Definition answer_without_E {D} (d : D) : response D :=
  Response true "{...}" (Some (Envelope (Some 200) (Some d) None)).

(** Collaborators that answer every GET with [g] and every POST with [p];
    the codec keeps the document as it is. *)
Definition sample_env (g : outcome listing) (p : outcome node)
    (rank : string -> N) : Env :=
  {| requests_get := fun _ => g;
     requests_post := fun _ _ _ => p;
     current_reads := fun s => Some (Notebook ∅ s);
     current_writes := fun nb => Some (worksheets nb);
     json_dumps := fun _ => "{}";
     dateutil_parse := fun _ => Some (Datetime 2012 6 1 0 0 0 0);
     now_isoformat := "2014-01-01T00:00:00";
     uuid4 := "0b1a";
     dict_rank := rank |}.

Definition unreachable {D} : outcome D := Fails (OtherError "ConnectionError").

Definition no_rank : string -> N := fun _ => 0%N.

(** The slot of a one-letter key in the table of a small CPython 2 dict:
    the low bits of the hash of the key, which are those of its letter
    with the lowest bit flipped. *)
Definition slot_rank (s : string) : N :=
  match s with
  | String c EmptyString => N.land (N.lxor (N_of_ascii c) 1) 7
  | _ => 0%N
  end.

Definition sample_manager (entries : list (string * node)) : manager :=
  Manager "http://shock" ""
    (list_to_map ((fun e => (fst e, default "" (attributes (snd e) !! "name"))) <$> entries))
    (list_to_map entries) [].

Definition sample_notebook : notebook :=
  Notebook {[ "name" := "analysis" ]} "cells".

(** ** Vocabulary of the further properties *)

(** A response that [postShock] takes as a success with the data [d]: it
    is [ok] and its envelope has the three fields and no error. The body
    of the response is not looked at. *)
Definition accepted {D} (r : response D) (d : D) : Prop :=
  ok r = true /\
  exists status err, json r = Some (Envelope (Some status) (Some d) (Some err))
                     /\ truthy_opt err = false.


(** The URL from which [read_notebook_object] downloads a node. *)
Definition download_url (st : manager) (n : node) : string :=
  shock_url st ++ "/node/" ++ node_id n ++ "?download".

(** The request that [postShock] sends for a document. *)
Definition post_request (url nm data attr : string) : request :=
  Post url (nm ++ ".ipynb", data) (nm ++ "_metadata.json", attr).

(** No two notebooks of the mapping have the same name. *)
Definition distinct_names (st : manager) : Prop :=
  forall i j nm, mapping st !! i = Some nm -> mapping st !! j = Some nm -> i = j.

(** An answer in which the store reports an error. *)
Definition store_error {D} (d : D) : response D :=
  Response true "{...}" (Some (Envelope (Some 503) (Some d) (Some (Some "unavailable")))).

(** A response with a status that is not a success. *)
Definition not_found_page {D} : response D :=
  Response false "<html>404</html>" None.

Definition nameless : node :=
  sample_node "o9" 4 [("uuid", "u9"); ("created", "2012-03-02T00:00:00")].
Definition anonymous : node :=
  sample_node "o10" 4 [("name", "anonymous"); ("created", "2012-03-02T00:00:00")].

#[global] Instance node_eq_dec : EqDecision node.
Proof. solve_decision. Defined.

(** Collaborators of a write that the store accepts with the node [june],
    and collaborators of a later read: the store serves the content that
    was posted and the codec decodes it to the document that was
    encoded. *)
Definition accepting_env : Env :=
  sample_env unreachable (Responds (answer june)) no_rank.

Definition serving_env : Env :=
  {| requests_get := fun _ => Responds (Response true "cells" None);
     requests_post := fun _ _ _ => unreachable;
     current_reads := fun _ => Some (stamped accepting_env "" "u1" sample_notebook);
     current_writes := fun nb => Some (worksheets nb);
     json_dumps := fun _ => "{}";
     dateutil_parse := fun _ => Some (Datetime 2012 6 1 0 0 0 0);
     now_isoformat := "2014-02-01T00:00:00";
     uuid4 := "0b1b";
     dict_rank := no_rank |}.

(** ** The rebuild in the terms of the data model

    These definitions read the nodes only; they do not use the test of
    the first loop. *)

(** A node that counts: its file is not empty and it has no [deleted]
    attribute. *)
Definition live (n : node) : Prop :=
  file_size n <> 0 /\ attributes n !! "deleted" = None.

#[global] Instance live_dec (n : node) : Decision (live n).
Proof. unfold live. apply _. Defined.

(** The uuids of the nodes of a listing that count, one per node. *)
Definition live_uuids (nodes : list node) : list string :=
  omap (fun n => attributes n !! "uuid") (filter live nodes).

(** [w] is the newest node of [uuid] in a listing: it counts and has that
    uuid; of the nodes that count and have that uuid, those listed before
    it are created strictly earlier and those listed after it are not
    created later. *)
Definition newest_of (uuid : string) (nodes : list node) (w : node) : Prop :=
  exists l1 l2, nodes = (l1 ++ w :: l2)%list
    /\ live w /\ attributes w !! "uuid" = Some uuid
    /\ (forall n, n ∈ l1 -> live n -> attributes n !! "uuid" = Some uuid ->
          String.ltb (created n) (created w) = true)
    /\ (forall n, n ∈ l2 -> live n -> attributes n !! "uuid" = Some uuid ->
          String.leb (created n) (created w) = true).
(** ** Facts about the runtime *)

(** *** The order on strings *)

Lemma string_leb_refl (s : string) : String.leb s s = true.
Proof. destruct (String.leb_total s s); assumption. Qed.

Lemma string_compare_lt_trans (a b c : string) :
  String.compare a b = Lt -> String.compare b c = Lt -> String.compare a c = Lt.
Proof.
  intros Hab Hbc.
  apply String_as_OT.cmp_lt. apply String_as_OT.cmp_lt in Hab, Hbc.
  eapply String_as_OT.lt_trans; eassumption.
Qed.

Lemma string_leb_trans (a b c : string) :
  String.leb a b = true -> String.leb b c = true -> String.leb a c = true.
Proof.
  unfold String.leb. intros Hab Hbc.
  destruct (String.compare a b) eqn:Eab; try discriminate.
  - apply String.compare_eq_iff in Eab. subst b. exact Hbc.
  - destruct (String.compare b c) eqn:Ebc; try discriminate.
    + apply String.compare_eq_iff in Ebc. subst c. rewrite Eab. reflexivity.
    + rewrite (string_compare_lt_trans a b c Eab Ebc). reflexivity.
Qed.

Lemma N_leb_total (a b : N) : N.leb a b = true \/ N.leb b a = true.
Proof. destruct (N.leb_spec a b); [left | right; apply N.leb_le]; auto; lia. Qed.

Lemma N_leb_trans (a b c : N) :
  N.leb a b = true -> N.leb b c = true -> N.leb a c = true.
Proof. rewrite !N.leb_le. lia. Qed.

(** *** [sorted] *)

Section SortedFacts.
Context {A K : Type} (leb : K -> K -> bool) (key : A -> K) (reverse : bool).
Hypothesis leb_total : forall a b, leb a b = true \/ leb b a = true.
Hypothesis leb_trans : forall a b c, leb a b = true -> leb b c = true -> leb a c = true.

Local Abbreviation bef := (before leb key reverse).
Local Abbreviation ins := (insert_sorted leb key reverse).
Local Abbreviation srt := (sorted leb key reverse).

Lemma before_total x y : bef x y = true \/ bef y x = true.
Proof using leb_total.
  unfold before. destruct reverse; [destruct (leb_total (key y) (key x)) | apply leb_total]; auto.
Qed.

Lemma before_refl x : bef x x = true.
Proof using leb_total. destruct (before_total x x); assumption. Qed.

Lemma before_trans x y z : bef x y = true -> bef y z = true -> bef x z = true.
Proof using leb_trans. unfold before. destruct reverse; eauto. Qed.

Lemma before_false x y : bef x y = false -> bef y x = true.
Proof using leb_total. intros H. destruct (before_total x y); congruence. Qed.

Lemma before_key_eq x y : key x = key y -> bef x y = true.
Proof using leb_total.
  intros E. pose proof (before_refl x) as H. unfold before in *.
  rewrite <- E. destruct reverse; exact H.
Qed.

Lemma insert_sorted_perm x l : ins x l ≡ₚ x :: l.
Proof.
  induction l as [|y l IH]; simpl; [reflexivity|].
  destruct (bef x y); [reflexivity|].
  rewrite IH. apply Permutation_swap.
Qed.

Lemma sorted_perm l : srt l ≡ₚ l.
Proof.
  induction l as [|x l IH]; simpl; [reflexivity|].
  rewrite insert_sorted_perm. by rewrite IH.
Qed.

Lemma sorted_elem_of x l : x ∈ srt l <-> x ∈ l.
Proof. by rewrite (sorted_perm l). Qed.

Lemma insert_sorted_strongly x l :
  StronglySorted (fun a b => bef a b = true) l ->
  StronglySorted (fun a b => bef a b = true) (ins x l).
Proof using leb_total leb_trans.
  induction 1 as [|y l Hs IH Hy]; simpl.
  - repeat constructor.
  - destruct (bef x y) eqn:E.
    + constructor; [by constructor|].
      constructor; [exact E|].
      eapply Forall_impl; [exact Hy|]. intros z Hz. eapply before_trans; eauto.
    + constructor; [exact IH|].
      rewrite (insert_sorted_perm x l). constructor; [|exact Hy].
      by apply before_false.
Qed.

(** The result is in order. *)
Lemma sorted_strongly l : StronglySorted (fun a b => bef a b = true) (srt l).
Proof using leb_total leb_trans.
  induction l; simpl; [constructor | by apply insert_sorted_strongly].
Qed.

(** The first element of the result: nothing before it in the input is as
    good, nothing after it is better. *)
Lemma sorted_head l w s :
  srt l = w :: s ->
  exists l1 l2, l = (l1 ++ w :: l2)%list
    /\ (forall x, x ∈ l1 -> bef x w = false)
    /\ (forall x, x ∈ l2 -> bef w x = true).
Proof using leb_total leb_trans.
  revert w s. induction l as [|x l IH]; intros w s; simpl; [discriminate|].
  destruct (srt l) as [|y s'] eqn:Es; simpl.
  - intros [= <- <-]. exists [], l. split; [reflexivity|].
    assert (l = []) as -> by (apply Permutation_nil_r; by rewrite <- (sorted_perm l), Es).
    split; intros z Hz; by apply elem_of_nil in Hz.
  - destruct (IH y s' eq_refl) as (a1 & a2 & -> & H1 & H2).
    destruct (bef x y) eqn:E.
    + intros [= <- <-]. exists [], (a1 ++ y :: a2)%list. split; [reflexivity|].
      split; [intros z Hz; by apply elem_of_nil in Hz|].
      intros z Hz. apply (before_trans x y z E).
      apply elem_of_app in Hz as [Hz|Hz].
      * apply before_false. by apply H1.
      * apply elem_of_cons in Hz as [->|Hz]; [apply before_refl | by apply H2].
    + intros [= <- <-]. exists (x :: a1), a2. split; [reflexivity|].
      split; [|exact H2].
      intros z Hz. apply elem_of_cons in Hz as [->|Hz]; [exact E | by apply H1].
Qed.

Lemma sorted_nil_inv l : srt l = [] -> l = [].
Proof. intros E. apply Permutation_nil_r. by rewrite <- (sorted_perm l), E. Qed.

(** Stability: the elements of one key are in the order of the input. *)
Lemma insert_sorted_stable `{!EqDecision K} k x l :
  filter (fun y => key y = k) (ins x l) = filter (fun y => key y = k) (x :: l).
Proof using leb_total.
  induction l as [|y l IH]; simpl; [reflexivity|].
  destruct (bef x y) eqn:E; [reflexivity|].
  rewrite filter_cons, IH, !filter_cons.
  destruct (decide (key y = k)) as [Ey|Ey], (decide (key x = k)) as [Ex|Ex];
    try reflexivity.
  rewrite before_key_eq in E by congruence. discriminate.
Qed.

Lemma sorted_stable `{!EqDecision K} k l :
  filter (fun y => key y = k) (srt l) = filter (fun y => key y = k) l.
Proof using leb_total.
  induction l as [|x l IH]; simpl; [reflexivity|].
  rewrite insert_sorted_stable, !filter_cons, IH. reflexivity.
Qed.
(** A list that is in order and stable with respect to the input is the
    result of [sorted]: the model does not depend on the algorithm of the
    sort. *)
Lemma stable_sorted_unique `{!EqDecision K} l1 : forall l2,
  (forall a b, leb a b = true -> leb b a = true -> a = b) ->
  StronglySorted (fun a b => bef a b = true) l1 ->
  StronglySorted (fun a b => bef a b = true) l2 ->
  (forall k, filter (fun y => key y = k) l1 = filter (fun y => key y = k) l2) ->
  l1 = l2.
Proof using leb_total.
  intros l2 Hanti. revert l2.
  assert (forall x y, bef x y = true -> bef y x = true -> key x = key y) as Hkey.
  { unfold before. intros x y. destruct reverse; intros H1 H2; auto using eq_sym. }
  induction l1 as [|x l1 IH]; intros [|y l2] Hs1 Hs2 Hf; [reflexivity| | |].
  - specialize (Hf (key y)). rewrite filter_nil, filter_cons, decide_True in Hf by done.
    discriminate.
  - specialize (Hf (key x)). rewrite filter_nil, filter_cons, decide_True in Hf by done.
    discriminate.
  - apply StronglySorted_inv in Hs1 as [Hs1 Hx]. apply StronglySorted_inv in Hs2 as [Hs2 Hy].
    rewrite Forall_forall in Hx, Hy.
    assert (bef y x = true) as Hyx.
    { assert (x ∈ y :: l2) as Hin.
      { pose proof (Hf (key x)) as E. rewrite (filter_cons _ x), decide_True in E by done.
        eapply list_elem_of_filter. rewrite <- E. by left. }
      apply elem_of_cons in Hin as [->|Hin]; [apply before_refl | by apply Hy]. }
    assert (bef x y = true) as Hxy.
    { assert (y ∈ x :: l1) as Hin.
      { pose proof (Hf (key y)) as E. rewrite (filter_cons _ y), decide_True in E by done.
        eapply list_elem_of_filter. rewrite E. by left. }
      apply elem_of_cons in Hin as [->|Hin]; [apply before_refl | by apply Hx]. }
    pose proof (Hkey x y Hxy Hyx) as Exy.
    pose proof (Hf (key x)) as E.
    rewrite (filter_cons _ x), (filter_cons _ y), !decide_True in E by done.
    injection E as <- E. f_equal. apply IH; [done..|].
    intros k. specialize (Hf k). rewrite !filter_cons in Hf.
    destruct (decide (key x = k)); [by injection Hf | exact Hf].
Qed.

Lemma sorted_unique `{!EqDecision K} l l' :
  (forall a b, leb a b = true -> leb b a = true -> a = b) ->
  StronglySorted (fun a b => bef a b = true) l' ->
  (forall k, filter (fun y => key y = k) l' = filter (fun y => key y = k) l) ->
  l' = srt l.
Proof using leb_total leb_trans.
  intros Hanti Hs Hf. apply stable_sorted_unique; [exact Hanti | exact Hs | |].
  - apply sorted_strongly.
  - intros k. by rewrite sorted_stable.
Qed.
End SortedFacts.

(** Sorting the pairs of a key and an element by the key, then dropping the
    keys, is sorting the elements by the key. *)
Lemma insert_sorted_decorated {A K} (leb : K -> K -> bool) (f : A -> K)
    (reverse : bool) (x : A) (s : list (K * A)) :
  Forall (fun p => fst p = f (snd p)) s ->
  snd <$> insert_sorted leb fst reverse (f x, x) s
  = insert_sorted leb f reverse x (snd <$> s).
Proof.
  induction 1 as [|[k y] s Hy Hs IH]; simpl in *; [reflexivity|].
  subst k. unfold before. simpl.
  destruct (if reverse then leb (f y) (f x) else leb (f x) (f y)); simpl;
    [reflexivity | f_equal; exact IH].
Qed.

Lemma sorted_decorated {A K} (leb : K -> K -> bool) (f : A -> K) (reverse : bool)
    (l : list A) :
  snd <$> sorted leb fst reverse ((fun x => (f x, x)) <$> l) = sorted leb f reverse l.
Proof.
  induction l as [|x l IH]; [reflexivity|].
  rewrite fmap_cons. cbn [sorted].
  rewrite insert_sorted_decorated, IH; [reflexivity|].
  rewrite (sorted_perm leb fst reverse). apply Forall_fmap, Forall_true. done.
Qed.

(** *** Iteration over a dict *)

Lemma dict_items_perm {A} (rank : string -> N) (d : gmap string A) :
  dict_items rank d ≡ₚ map_to_list d.
Proof. apply sorted_perm. Qed.

Lemma elem_of_dict_items {A} (rank : string -> N) (d : gmap string A) k v :
  (k, v) ∈ dict_items rank d <-> d !! k = Some v.
Proof. rewrite (dict_items_perm rank d). apply elem_of_map_to_list. Qed.

Lemma NoDup_fst_dict_items {A} (rank : string -> N) (d : gmap string A) :
  NoDup (fst <$> dict_items rank d).
Proof. rewrite (dict_items_perm rank d). apply NoDup_fst_map_to_list. Qed.

Lemma dict_items_empty {A} (rank : string -> N) :
  dict_items rank (∅ : gmap string A) = [].
Proof. unfold dict_items. rewrite map_to_list_empty. reflexivity. Qed.

(** *** Truth values *)

Lemma truthy_false (s : string) : truthy s = false <-> s = "".
Proof. destruct s; simpl; split; congruence. Qed.

Lemma truthy_true (s : string) : truthy s = true <-> s <> "".
Proof. destruct s; simpl; split; congruence. Qed.

(** ** Facts about the SHOCK client *)

Arguments valid_envelope : simpl never.

Ltac run_py :=
  repeat (progress (cbv beta iota zeta delta
    [bind ret raise try_except gets modify local getitem
     raise_for_status envelope_data envelope_field]; simpl)).

(** Whatever the outcome, [getShock] sends one GET and changes nothing
    else. *)
Lemma getShock_state env url format st :
  snd (getShock env url format st) = log_request (Get url) st.
Proof.
  unfold getShock. run_py.
  destruct (requests_get env url) as [e|r]; simpl; [reflexivity|].
  destruct (ok r) eqn:Eok, (truthy (text r)); simpl; try reflexivity.
  destruct (String.eqb format "json"); simpl; [|reflexivity].
  unfold valid_envelope.
  destruct (json r) as [[s d e]|]; simpl; [|reflexivity].
  destruct s, d, e as [e|]; simpl; try reflexivity.
  destruct (truthy_opt e); reflexivity.
Qed.

Lemma postShock_state env url nm data attr st :
  snd (postShock env url nm data attr st)
  = log_request (Post url (nm ++ ".ipynb", data) (nm ++ "_metadata.json", attr)) st.
Proof.
  unfold postShock. run_py.
  destruct (requests_post env url _ _) as [e|r]; simpl; [reflexivity|].
  unfold valid_envelope.
  destruct (ok r) eqn:Eok; simpl; rewrite ?Eok; try reflexivity.
  destruct (json r) as [[s d e]|]; simpl; rewrite ?Eok; simpl; [|reflexivity].
  destruct s, d, e as [e|]; simpl; rewrite ?Eok; simpl; try reflexivity.
  destruct (truthy_opt e); reflexivity.
Qed.

(** A query that is answered returns the data. *)
Lemma getShock_answers env url st r d :
  requests_get env url = Responds r -> answers r d ->
  getShock env url "json" st = (Ok (inr d), log_request (Get url) st).
Proof.
  intros Hr (Hok & Htext & s & e & Hj & He).
  unfold getShock. run_py. rewrite Hr. simpl.
  unfold valid_envelope. rewrite Hok, Htext, Hj. simpl. rewrite He. reflexivity.
Qed.

Lemma postShock_answers env url nm data attr st r d :
  requests_post env url (nm ++ ".ipynb", data) (nm ++ "_metadata.json", attr)
    = Responds r ->
  answers r d ->
  postShock env url nm data attr st
  = (Ok d, log_request (Post url (nm ++ ".ipynb", data) (nm ++ "_metadata.json", attr)) st).
Proof.
  intros Hr (Hok & Htext & s & e & Hj & He).
  unfold postShock. run_py. rewrite Hr. simpl.
  unfold valid_envelope. rewrite Hok, Hj. simpl. rewrite He. reflexivity.
Qed.

(** A download returns the body of the response. *)
Lemma getShock_data env url st r :
  requests_get env url = Responds r -> ok r = true -> truthy (text r) = true ->
  getShock env url "data" st = (Ok (inl (text r)), log_request (Get url) st).
Proof.
  intros Hr Hok Htext. unfold getShock. run_py. rewrite Hr. simpl.
  rewrite Hok, Htext. reflexivity.
Qed.

(** An envelope with a missing field is not valid. *)
Lemma valid_envelope_missing {D} (e : envelope D) :
  field_missing e -> valid_envelope (Some e) = false.
Proof.
  assert (bool_decide (is_Some (@None D)) = false
          /\ bool_decide (is_Some (@None Z)) = false
          /\ bool_decide (is_Some (@None (option string))) = false) as (HD & HZ & HE).
  { repeat split; apply bool_decide_eq_false_2; intros [? ?]; discriminate. }
  unfold valid_envelope.
  intros [H|[H|H]]; rewrite H, ?HD, ?HZ, ?HE, ?andb_false_r; reflexivity.
Qed.

(** On an envelope with a missing field the query never returns: the
    message of the error to raise reads the local [e], which has no value
    when the request went through. *)
Lemma getShock_missing_field env url st r e :
  requests_get env url = Responds r -> ok r = true -> truthy (text r) = true ->
  json r = Some e -> field_missing e ->
  getShock env url "json" st
  = (Raise (UnboundLocalError "e"), log_request (Get url) st).
Proof.
  intros Hr Hok Htext Hj Hm. unfold getShock. run_py. rewrite Hr. simpl.
  rewrite Hok, Htext, Hj. simpl.
  rewrite (valid_envelope_missing e Hm). reflexivity.
Qed.

(** On an envelope with a missing field the creation never returns
    either: it raises the error of a failed POST. *)
Lemma postShock_missing_field env url nm data attr st r e :
  requests_post env url (nm ++ ".ipynb", data) (nm ++ "_metadata.json", attr)
    = Responds r ->
  json r = Some e -> field_missing e ->
  fst (postShock env url nm data attr st)
  = Raise (if ok r then HTTPError 400 "Unable to POST to SHOCK server"
           else RequestsHTTPError).
Proof.
  intros Hr Hj Hm. unfold postShock. run_py. rewrite Hr. simpl.
  rewrite Hj.
  rewrite (valid_envelope_missing e Hm), andb_false_r. simpl.
  destruct (ok r); reflexivity.
Qed.

(** What [getShock] returns or raises does not depend on the manager. *)
Lemma getShock_result env url format st st' :
  fst (getShock env url format st) = fst (getShock env url format st').
Proof.
  unfold getShock. run_py.
  destruct (requests_get env url) as [e|r]; simpl; [reflexivity|].
  destruct (ok r) eqn:Eok, (truthy (text r)); simpl; try reflexivity.
  destruct (String.eqb format "json"); simpl; [|reflexivity].
  unfold valid_envelope.
  destruct (json r) as [[s d e]|]; simpl; [|reflexivity].
  destruct s, d, e as [e|]; simpl; try reflexivity.
  destruct (truthy_opt e); reflexivity.
Qed.

(** A creation that is accepted returns the node. *)
Lemma postShock_accepted env url nm data attr st r d :
  requests_post env url (nm ++ ".ipynb", data) (nm ++ "_metadata.json", attr)
    = Responds r ->
  accepted r d ->
  postShock env url nm data attr st
  = (Ok d, log_request (post_request url nm data attr) st).
Proof.
  intros Hr (Hok & s & e & Hj & He).
  unfold postShock. run_py. rewrite Hr. simpl.
  unfold valid_envelope. rewrite Hok, Hj. simpl. rewrite He. reflexivity.
Qed.

(** ** Facts about the rebuild *)

Lemma string_leb_false (a b : string) :
  String.leb a b = false -> String.ltb b a = true.
Proof.
  unfold String.leb, String.ltb. rewrite (String.compare_antisym b a).
  destruct (String.compare a b); simpl; congruence.
Qed.

Lemma filter_split {A} (P : A -> Prop) `{!forall x, Decision (P x)} (l a b : list A) w :
  filter P l = (a ++ w :: b)%list ->
  exists l1 l2, l = (l1 ++ w :: l2)%list /\ filter P l1 = a /\ filter P l2 = b /\ P w.
Proof.
  revert a. induction l as [|x l IH]; intros a E.
  - destruct a; discriminate.
  - rewrite filter_cons in E. destruct (decide (P x)) as [Hx|Hx].
    + destruct a as [|y a]; simpl in E; injection E as -> E.
      * exists [], l. rewrite filter_nil. auto.
      * destruct (IH a E) as (l1 & l2 & -> & H1 & H2 & Hw).
        exists (y :: l1), l2. rewrite filter_cons, decide_True by done.
        rewrite H1. auto.
    + destruct (IH a E) as (l1 & l2 & -> & H1 & H2 & Hw).
      exists (x :: l1), l2. rewrite filter_cons, decide_False by done. auto.
Qed.

Lemma versions_cons_kept u n l : kept u n -> versions u (n :: l) = n :: versions u l.
Proof. intros H. unfold versions. rewrite filter_cons. by destruct (decide (kept u n)). Qed.

Lemma versions_cons_skip u n l : ~ kept u n -> versions u (n :: l) = versions u l.
Proof. intros H. unfold versions. rewrite filter_cons. by destruct (decide (kept u n)). Qed.

(** The first loop: the versions of every uuid, in the order of the
    listing. *)
Lemma collect_versions nodes : forall acc st,
  (forall n, n ∈ nodes -> skipped n = false -> is_Some (attributes n !! "uuid")) ->
  exists acc', fold_each nodes collect_version acc st = (Ok acc', st)
    /\ forall u, acc' !! u
         = if decide (versions u nodes = []) then acc !! u
           else Some (default [] (acc !! u) ++ versions u nodes)%list.
Proof.
  induction nodes as [|n nodes IH]; intros acc st Hwf.
  - exists acc. split; [reflexivity|]. intros u. reflexivity.
  - assert (forall m, m ∈ nodes -> skipped m = false -> is_Some (attributes m !! "uuid"))
      as Hwf' by (intros m Hm; apply Hwf; by right).
    cbn [fold_each]. unfold bind at 1. unfold collect_version at 1.
    destruct (skipped n) eqn:Esk.
    + run_py. destruct (IH acc st Hwf') as (acc' & -> & Hacc').
      exists acc'. split; [reflexivity|]. intros u. rewrite Hacc'.
      rewrite versions_cons_skip; [reflexivity|].
      unfold kept. intros [? _]. congruence.
    + destruct (Hwf n (list_elem_of_here _ _) Esk) as [un Hun].
      run_py. rewrite Hun.
      destruct (IH (<[un := (default [] (acc !! un) ++ [n])%list]> acc) st Hwf')
        as (acc' & -> & Hacc').
      exists acc'. split; [reflexivity|]. intros u. rewrite Hacc'.
      destruct (decide (u = un)) as [->|Hne].
      * rewrite versions_cons_kept by done. rewrite lookup_insert_eq. simpl.
        destruct (decide (versions un nodes = [])) as [->|_].
        -- reflexivity.
        -- by rewrite <- app_assoc.
      * rewrite versions_cons_skip by (unfold kept; intros [_ ?]; congruence).
        by rewrite lookup_insert_ne.
Qed.

(** The keys of [sorted] in the second loop. *)
Lemma keys_of_created (vers : list node) (st : manager) :
  (forall n, n ∈ vers -> is_Some (attributes n !! "created")) ->
  keys_of (fun x => getitem (attributes x) "created") vers st
  = (Ok ((fun x => (created x, x)) <$> vers), st).
Proof.
  induction vers as [|n vers IH]; intros Hc; [reflexivity|].
  destruct (Hc n (list_elem_of_here _ _)) as [c Hn].
  cbn [keys_of]. unfold bind at 1. unfold getitem at 1. rewrite Hn.
  unfold ret at 1. unfold bind at 1.
  rewrite IH by (intros m Hm; apply Hc; by right).
  unfold ret. rewrite fmap_cons.
  replace (created n) with c by (unfold created; by rewrite Hn). reflexivity.
Qed.

Lemma sorted_by_created (vers : list node) (st : manager) :
  (forall n, n ∈ vers -> is_Some (attributes n !! "created")) ->
  sorted_by String.leb (fun x => getitem (attributes x) "created") true vers st
  = (Ok (sorted String.leb created true vers), st).
Proof.
  intros Hc. unfold sorted_by, bind. rewrite keys_of_created by done.
  unfold ret. by rewrite sorted_decorated.
Qed.

(** One turn of the second loop. *)
Lemma record_latest_ok u vers st w nm :
  (forall n, n ∈ vers -> is_Some (attributes n !! "created")) ->
  latest vers = Some w -> attributes w !! "name" = Some nm ->
  record_latest (u, vers) st
  = (Ok tt, set_shock_map (insert u w) (set_mapping (insert u nm) st)).
Proof.
  intros Hc Hl Hn. unfold record_latest, bind at 1.
  rewrite sorted_by_created by done.
  apply head_Some in Hl as [s ->]. run_py. rewrite Hn. reflexivity.
Qed.

(** The second loop over entries with distinct keys. *)
Lemma for_each_record_latest its : forall st,
  NoDup (fst <$> its) ->
  (forall u vers, (u, vers) ∈ its ->
     (forall n, n ∈ vers -> is_Some (attributes n !! "created"))
     /\ exists w, latest vers = Some w /\ is_Some (attributes w !! "name")) ->
  exists st', for_each its record_latest st = (Ok tt, st')
    /\ shock_url st' = shock_url st /\ shock_user st' = shock_user st
    /\ sent st' = sent st
    /\ (forall u vers, (u, vers) ∈ its ->
          shock_map st' !! u = latest vers
          /\ mapping st' !! u = latest vers ≫= (fun w => attributes w !! "name"))
    /\ (forall u, u ∉ fst <$> its ->
          shock_map st' !! u = shock_map st !! u /\ mapping st' !! u = mapping st !! u).
Proof.
  induction its as [|[u0 v0] its IH]; intros st Hnd Hok.
  - exists st. do 4 (split; [reflexivity|]). split; [|done].
    intros u vers H. by apply elem_of_nil in H.
  - rewrite fmap_cons in Hnd. apply NoDup_cons in Hnd as [Hu0 Hnd].
    destruct (Hok u0 v0 (list_elem_of_here _ _)) as (Hc & w & Hw & nm & Hnm).
    cbn [for_each]. unfold bind at 1.
    rewrite (record_latest_ok u0 v0 st w nm Hc Hw Hnm).
    destruct (IH (set_shock_map (insert u0 w) (set_mapping (insert u0 nm) st)) Hnd)
      as (st' & -> & Hurl & Husr & Hsent & Hin & Hout).
    { intros u vers H. apply (Hok u vers). by right. }
    exists st'. split; [reflexivity|]. split; [exact Hurl|]. split; [exact Husr|].
    split; [exact Hsent|]. split.
    + intros u vers H. apply elem_of_cons in H as [Heq|H]; [|by apply Hin].
      simplify_eq. destruct (Hout u0 Hu0) as [-> ->]. simpl.
      rewrite !lookup_insert_eq, Hw. simpl. by rewrite Hnm.
    + intros u Hu. rewrite fmap_cons in Hu. apply not_elem_of_cons in Hu as [Hne Hu].
      destruct (Hout u Hu) as [-> ->]. simpl.
      by rewrite !lookup_insert_ne.
Qed.

(** [load_notebook_names] up to the answer of the query. *)
Lemma load_notebook_names_unfold env st :
  load_notebook_names env st
  = match getShock env (query_url st) "json" (cleared st) with
    | (Ok query_res, st1) =>
        (nb_vers <- match query_res with
                    | inr None => ret ∅
                    | inr (Some nodes) => fold_each nodes collect_version ∅
                    | inl _ => raise TypeError
                    end ;;
         for_each (dict_items (dict_rank env) nb_vers) record_latest) st1
    | (Raise e, st1) => (Raise e, st1)
    end.
Proof. reflexivity. Qed.

Lemma latest_nil : latest [] = None.
Proof. reflexivity. Qed.

Lemma latest_elem_of vers w : latest vers = Some w -> w ∈ vers.
Proof.
  unfold latest. intros H. apply head_Some_elem_of in H.
  by apply sorted_elem_of in H.
Qed.

Lemma latest_is_Some vers : vers <> [] -> is_Some (latest vers).
Proof.
  intros Hne. unfold latest.
  destruct (sorted String.leb created true vers) eqn:E; [|by eexists].
  apply sorted_nil_inv in E. contradiction.
Qed.

Lemma elem_of_versions u nodes n : n ∈ versions u nodes <-> n ∈ nodes /\ kept u n.
Proof. unfold versions. rewrite list_elem_of_filter. tauto. Qed.

(** A rebuild over an answered listing: every uuid is mapped to the latest
    of its versions. *)
Lemma load_notebook_names_answers env st r nodes :
  requests_get env (query_url st) = Responds r ->
  answers r (Some nodes) ->
  (forall n, n ∈ nodes -> skipped n = false -> well_formed n) ->
  exists st', load_notebook_names env st = (Ok tt, st')
    /\ shock_url st' = shock_url st /\ shock_user st' = shock_user st
    /\ sent st' = Get (query_url st) :: sent st
    /\ forall u, shock_map st' !! u = latest (versions u nodes)
         /\ mapping st' !! u
            = latest (versions u nodes) ≫= (fun w => attributes w !! "name").
Proof.
  intros Hr Hans Hwf. rewrite load_notebook_names_unfold.
  rewrite (getShock_answers env _ _ r (Some nodes) Hr Hans).
  unfold bind at 1.
  destruct (collect_versions nodes ∅ (log_request (Get (query_url st)) (cleared st)))
    as (nb_vers & -> & Hvers).
  { intros n Hn Hs. by destruct (Hwf n Hn Hs). }
  assert (forall u, nb_vers !! u
            = if decide (versions u nodes = []) then None else Some (versions u nodes))
    as Hnb.
  { intros u. rewrite Hvers, lookup_empty. reflexivity. }
  clear Hvers.
  destruct (for_each_record_latest (dict_items (dict_rank env) nb_vers)
              (log_request (Get (query_url st)) (cleared st)))
    as (st' & -> & Hurl & Husr & Hsent & Hin & Hout).
  { apply NoDup_fst_dict_items. }
  { intros u vers Hu. apply elem_of_dict_items in Hu. rewrite Hnb in Hu.
    destruct (decide (versions u nodes = [])) as [|Hne]; [discriminate|].
    injection Hu as <-. split.
    - intros n Hn. apply elem_of_versions in Hn as [Hn [Hs _]].
      by destruct (Hwf n Hn Hs) as (_ & _ & ?).
    - destruct (latest_is_Some _ Hne) as [w Hw]. exists w. split; [exact Hw|].
      apply latest_elem_of, elem_of_versions in Hw as [Hn [Hs _]].
      by destruct (Hwf w Hn Hs) as (_ & ? & _). }
  exists st'. split; [reflexivity|]. split; [exact Hurl|]. split; [exact Husr|].
  split; [exact Hsent|]. intros u.
  destruct (decide (versions u nodes = [])) as [He|Hne].
  - rewrite He, latest_nil. apply Hout.
    intros Hu. apply list_elem_of_fmap in Hu as ([u' vers] & -> & Hu).
    apply elem_of_dict_items in Hu. simpl in Hu. rewrite Hnb, decide_True in Hu by done.
    discriminate.
  - apply Hin. apply elem_of_dict_items. rewrite Hnb. by rewrite decide_False.
Qed.

(** The latest of the versions of a uuid, in terms of the listing. *)
Lemma latest_versions_latest_of u nodes w :
  latest (versions u nodes) = Some w -> latest_of u nodes w.
Proof.
  unfold latest. intros H. apply head_Some in H as [s Hs].
  apply (sorted_head String.leb created true String.leb_total string_leb_trans) in Hs
    as (a & b & Hv & Ha & Hb).
  apply filter_split in Hv as (l1 & l2 & -> & <- & <- & Hw).
  exists l1, l2. split; [reflexivity|]. split; [exact Hw|]. split.
  - intros n Hn Hk. apply string_leb_false.
    apply (Ha n). apply list_elem_of_filter. by split.
  - intros n Hn Hk. apply (Hb n). apply list_elem_of_filter. by split.
Qed.

(** ** Facts about the operations on the mapping *)

(** [write_notebook_object] step by step: the name, the identifier, the
    stamps, the test on the mapping, the submission, the two entries. *)
Lemma write_notebook_object_unfold env oid nb st :
  write_notebook_object env oid (nb, st)
  = match metadata nb !! "name" with
    | None => (Raise (HTTPError 400 "Missing notebook name"), (nb, st))
    | Some nm =>
        let id := default (uuid4 env) oid in
        let st1 := match oid with
                   | None => set_mapping (insert (uuid4 env) nm) st
                   | Some _ => st
                   end in
        let nb1 := stamped env (shock_user st) id nb in
        if bool_decide (is_Some (mapping st1 !! id)) then
          match current_writes env nb1 with
          | None =>
              (Raise (HTTPError 400 "Unexpected error while saving notebook"), (nb1, st1))
          | Some data =>
              match postShock env (shock_url st ++ "/node") nm data
                      (json_dumps env (metadata nb1)) st1 with
              | (Ok shock_node, st2) =>
                  (Ok id, (nb1, set_shock_map (insert id shock_node)
                                  (set_mapping (insert id nm) st2)))
              | (Raise _, st2) =>
                  (Raise (HTTPError 400 "Unexpected error while saving notebook"),
                   (nb1, st2))
              end
          end
        else (Raise (HTTPError 404 "Notebook does not exist"), (nb1, st1))
    end.
Proof.
  unfold write_notebook_object, stamped.
  cbv beta iota zeta delta [bind ret raise try_except gets modify getattr_metadata
    setattr_metadata on_self new_notebook_id].
  cbn.
  destruct (metadata nb !! "name") as [nm|]; [|reflexivity].
  destruct oid as [id|]; cbn.
  - destruct (bool_decide (is_Some (mapping st !! id))); [|reflexivity].
    destruct (current_writes env _); cbn; [|reflexivity].
    destruct (postShock env _ _ _ _ st) as [[node|e] st2]; reflexivity.
  - destruct (bool_decide (is_Some (<[uuid4 env:=nm]> (mapping st) !! uuid4 env)));
      [|reflexivity].
    destruct (current_writes env _); cbn; [|reflexivity].
    destruct (postShock env _ _ _ _ _) as [[node|e] st2]; reflexivity.
Qed.

(** [read_notebook_object] step by step, for a notebook that exists. *)
Lemma read_notebook_object_unfold env id st n :
  notebook_exists id st = true -> shock_map st !! id = Some n ->
  let node_url := shock_url st ++ "/node/" ++ node_id n ++ "?download" in
  let st1 := log_request (Get node_url) st in
  read_notebook_object env id st
  = match fst (getShock env node_url "data" st) with
    | Ok (inl node_data) =>
        match current_reads env node_data with
        | None => (Raise (HTTPError 500 "Unreadable JSON notebook"), st1)
        | Some nb =>
            match attributes n !! "created" with
            | None => (Raise (KeyError "created"), st1)
            | Some dt =>
                if truthy dt then
                  match dateutil_parse env dt with
                  | Some d => (Ok (Parsed d, nb), st1)
                  | None => (Raise ValueError, st1)
                  end
                else (Ok (IsoNow (now_isoformat env), nb), st1)
            end
        end
    | _ => (Raise (HTTPError 500 "Notebook cannot be read"), st1)
    end.
Proof.
  intros Hex Hn node_url st1. unfold read_notebook_object.
  cbv beta iota zeta delta [bind ret raise try_except gets modify getitem].
  rewrite Hex. cbn. rewrite Hn. cbn.
  pose proof (getShock_state env node_url "data" st) as Hst.
  fold node_url. destruct (getShock env node_url "data" st) as [res st2].
  cbn in Hst. subst st2. fold st1. cbn.
  destruct res as [[txt|d]|e]; cbn; try reflexivity.
  destruct (current_reads env txt) as [nb|]; cbn; [|reflexivity].
  rewrite Hn. cbn.
  destruct (attributes n !! "created") as [dt|]; cbn; [|reflexivity].
  destruct (truthy dt); cbn; [|reflexivity].
  destruct (dateutil_parse env dt); reflexivity.
Qed.

(** A notebook that does not exist is not read. *)
Lemma read_notebook_object_missing env id st :
  notebook_exists id st = false ->
  read_notebook_object env id st = (Raise (HTTPError 404 "Notebook does not exist"), st).
Proof.
  intros Hex. unfold read_notebook_object.
  cbv beta iota zeta delta [bind ret raise try_except gets modify getitem].
  rewrite Hex. reflexivity.
Qed.

Lemma notebook_exists_true id st :
  notebook_exists id st = true
  <-> id ∈ dom (mapping st) /\ id ∈ dom (shock_map st).
Proof.
  unfold notebook_exists. rewrite andb_true_iff, !bool_decide_eq_true, !elem_of_dom.
  reflexivity.
Qed.

(** Reading sends at most one request and leaves the maps as they are. *)
Lemma read_notebook_object_maps env id st :
  mapping (snd (read_notebook_object env id st)) = mapping st
  /\ shock_map (snd (read_notebook_object env id st)) = shock_map st.
Proof.
  destruct (notebook_exists id st) eqn:Hex.
  - pose proof Hex as Hex'. apply notebook_exists_true in Hex' as [_ Hs].
    apply elem_of_dom in Hs as [n Hn].
    rewrite (read_notebook_object_unfold env id st n Hex Hn). cbn zeta.
    destruct (fst (getShock env _ "data" st)) as [[txt|d]|e]; try (split; reflexivity).
    destruct (current_reads env txt); [|split; reflexivity].
    destruct (attributes n !! "created") as [dt|]; [|split; reflexivity].
    destruct (truthy dt); [|split; reflexivity].
    destruct (dateutil_parse env dt); split; reflexivity.
  - rewrite read_notebook_object_missing by done. split; reflexivity.
Qed.

(** [delete_notebook] step by step. *)
Lemma delete_notebook_unfold id st :
  delete_notebook id st
  = if notebook_exists id st then
      (Ok tt, set_shock_map (delete id) (set_mapping (delete id) st))
    else (Raise (HTTPError 404 "Notebook does not exist"), st).
Proof.
  unfold delete_notebook, delete_notebook_id, delitem.
  cbv beta iota zeta delta [bind ret raise gets modify].
  destruct (notebook_exists id st) eqn:Hex; [|reflexivity]. cbn.
  apply notebook_exists_true in Hex as [Hm Hs].
  apply elem_of_dom in Hm as [nm Hm]. apply elem_of_dom in Hs as [n Hs].
  rewrite Hm. cbn. rewrite Hs. reflexivity.
Qed.

(** [list_notebooks] reads the mapping and nothing else. *)
Lemma list_notebooks_unfold env st :
  list_notebooks env st
  = (Ok (sorted String.leb name false
           ((fun kv => NbInfo (fst kv) (snd kv)) <$> dict_items (dict_rank env) (mapping st))),
     st).
Proof. reflexivity. Qed.

(** ** The keys of the two maps *)

Lemma keys_agree_insert id nm n st :
  keys_agree st -> keys_agree (set_shock_map (insert id n) (set_mapping (insert id nm) st)).
Proof. unfold keys_agree. simpl. rewrite !dom_insert_L. by intros ->. Qed.

Lemma keys_agree_delete id st :
  keys_agree st -> keys_agree (set_shock_map (delete id) (set_mapping (delete id) st)).
Proof. unfold keys_agree. simpl. rewrite !dom_delete_L. by intros ->. Qed.

Lemma keys_agree_same_maps st st' :
  mapping st' = mapping st -> shock_map st' = shock_map st ->
  keys_agree st -> keys_agree st'.
Proof. unfold keys_agree. by intros -> ->. Qed.

Lemma keys_of_created_state (vers : list node) (st : manager) :
  snd (keys_of (fun x => getitem (attributes x) "created") vers st) = st.
Proof.
  induction vers as [|n vers IH]; [reflexivity|].
  cbn [keys_of]. unfold bind at 1. unfold getitem at 1.
  destruct (attributes n !! "created"); [|reflexivity].
  unfold ret at 1. unfold bind.
  destruct (keys_of _ vers st) as [[kl|e] st']; simpl in *; exact IH.
Qed.

Lemma fold_each_collect_state nodes : forall acc st,
  snd (fold_each nodes collect_version acc st) = st.
Proof.
  induction nodes as [|n nodes IH]; intros acc st; [reflexivity|].
  cbn [fold_each]. unfold bind at 1, collect_version at 1.
  destruct (skipped n).
  - unfold ret at 1. apply IH.
  - unfold bind at 1, getitem. destruct (attributes n !! "uuid"); [|reflexivity].
    unfold ret at 1 2. apply IH.
Qed.

Lemma record_latest_keys_agree entry st :
  keys_agree st -> keys_agree (snd (record_latest entry st)).
Proof.
  intros Hk. destruct entry as [u vers]. unfold record_latest, sorted_by.
  unfold bind at 1 2.
  pose proof (keys_of_created_state vers st) as Hst.
  destruct (keys_of _ vers st) as [[kl|e] st']; simpl in Hst; subst st'; [|exact Hk].
  unfold ret at 1.
  destruct (snd <$> sorted String.leb fst true kl) as [|latest rest]; [exact Hk|].
  unfold bind at 1, getitem.
  destruct (attributes latest !! "name") as [nm|]; [|exact Hk].
  by apply keys_agree_insert.
Qed.

Lemma for_each_record_latest_keys_agree its : forall st,
  keys_agree st -> keys_agree (snd (for_each its record_latest st)).
Proof.
  induction its as [|entry its IH]; intros st Hk; [exact Hk|].
  cbn [for_each]. unfold bind.
  pose proof (record_latest_keys_agree entry st Hk) as Hk1.
  destruct (record_latest entry st) as [[[]|e] st1]; simpl in Hk1; [by apply IH | exact Hk1].
Qed.

(** After a rebuild the two maps have the same keys, whether it returns or
    raises, and whatever the maps were before. *)
Lemma load_notebook_names_keys_agree env st :
  keys_agree (snd (load_notebook_names env st)).
Proof.
  rewrite load_notebook_names_unfold.
  pose proof (getShock_state env (query_url st) "json" (cleared st)) as Hst.
  destruct (getShock env (query_url st) "json" (cleared st)) as [[res|e] st1];
    simpl in Hst; subst st1; [|reflexivity].
  unfold bind.
  assert (keys_agree (log_request (Get (query_url st)) (cleared st))) as Hk by reflexivity.
  destruct res as [txt|[nodes|]]; [exact Hk| |].
  - pose proof (fold_each_collect_state nodes ∅
                  (log_request (Get (query_url st)) (cleared st))) as Hst.
    destruct (fold_each nodes collect_version ∅ _) as [[nb_vers|e] st1];
      simpl in Hst; subst st1; [|exact Hk].
    by apply for_each_record_latest_keys_agree.
  - unfold ret. by apply for_each_record_latest_keys_agree.
Qed.

(** A write with an identifier keeps the keys in agreement, whether it
    returns or raises. *)
Lemma write_existing_keys_agree env nb id st :
  keys_agree st ->
  keys_agree (snd (snd (write_notebook_object env (Some id) (nb, st)))).
Proof.
  intros Hk. rewrite write_notebook_object_unfold.
  destruct (metadata nb !! "name") as [nm|]; [|exact Hk]. cbn zeta. simpl default.
  destruct (bool_decide (is_Some (mapping st !! id))); [|exact Hk].
  destruct (current_writes env _) as [data|]; [|exact Hk].
  pose proof (postShock_state env (shock_url st ++ "/node") nm data
                (json_dumps env (metadata (stamped env (shock_user st) id nb))) st) as Hst.
  destruct (postShock env _ nm data _ st) as [[n|e] st2]; simpl in Hst; subst st2.
  - by apply keys_agree_insert.
  - exact Hk.
Qed.

(** A write that returns keeps the keys in agreement. *)
Lemma write_completed_keys_agree env nb oid st :
  keys_agree st ->
  completed (fst (write_notebook_object env oid (nb, st))) = true ->
  keys_agree (snd (snd (write_notebook_object env oid (nb, st)))).
Proof.
  intros Hk. destruct oid as [id|]; [intros _; by apply write_existing_keys_agree|].
  rewrite write_notebook_object_unfold.
  destruct (metadata nb !! "name") as [nm|]; [|discriminate]. cbn zeta. simpl default.
  destruct (bool_decide _); [|discriminate].
  destruct (current_writes env _) as [data|]; [|discriminate].
  pose proof (postShock_state env (shock_url st ++ "/node") nm data
                (json_dumps env (metadata (stamped env (shock_user st) (uuid4 env) nb)))
                (set_mapping (insert (uuid4 env) nm) st)) as Hst.
  destruct (postShock env _ nm data _ _) as [[n|e] st2]; simpl in Hst; subst st2;
    [|discriminate].
  intros _. unfold keys_agree in *. simpl. rewrite !dom_insert_L, Hk.
  by rewrite (assoc_L (∪)), (idemp_L (∪)).
Qed.

(** One operation: the keys stay in agreement, unless the operation is a
    write of a new document that fails. *)
Lemma run_keys_agree env o st :
  keys_agree st ->
  fst (run env o st) = true \/ ~ new_document_write o ->
  keys_agree (snd (run env o st)).
Proof.
  intros Hk Hok. destruct o as [| |id|id|nb oid|id]; simpl in *.
  - pose proof (load_notebook_names_keys_agree env st) as H.
    by destruct (load_notebook_names env st).
  - exact Hk.
  - exact Hk.
  - pose proof (read_notebook_object_maps env id st) as [Hm Hs].
    destruct (read_notebook_object env id st) as [r st']. simpl in *.
    by apply (keys_agree_same_maps st).
  - destruct oid as [id|].
    + pose proof (write_existing_keys_agree env nb id st Hk) as H.
      by destruct (write_notebook_object env (Some id) (nb, st)).
    + pose proof (write_completed_keys_agree env nb None st Hk) as H.
      destruct (write_notebook_object env None (nb, st)) as [r s']. simpl in *.
      destruct Hok as [Hok|Hok]; [by apply H|].
      exfalso. apply Hok. by exists nb.
  - rewrite delete_notebook_unfold. destruct (notebook_exists id st); simpl; [|exact Hk].
    by apply keys_agree_delete.
Qed.

Lemma run_all_keys_agree calls : forall st,
  keys_agree st -> no_failed_new_write calls st -> keys_agree (run_all calls st).
Proof.
  induction calls as [|[env o] calls IH]; intros st Hk Hs; [exact Hk|].
  destruct Hs as [Hok Hs]. cbn [run_all]. apply IH; [|exact Hs].
  by apply run_keys_agree.
Qed.

(** ** The properties of the specification *)

Lemma skipped_false n :
  skipped n = false <-> file_size n <> 0 /\ attributes n !! "deleted" = None.
Proof.
  unfold skipped. rewrite orb_false_iff, Z.eqb_neq, bool_decide_eq_false.
  rewrite <- eq_None_not_Some. reflexivity.
Qed.

Lemma elem_of_kept_uuids u nodes :
  u ∈ kept_uuids nodes <-> exists n, n ∈ nodes /\ kept u n.
Proof.
  unfold kept_uuids, kept. rewrite list_elem_of_omap. split.
  - intros (n & Hn & Hu). apply list_elem_of_filter in Hn as [Hs Hn]. eauto.
  - intros (n & Hn & Hs & Hu). exists n. split; [|exact Hu].
    apply list_elem_of_filter. by split.
Qed.

Lemma latest_is_Some_iff u nodes :
  is_Some (latest (versions u nodes)) <-> u ∈ kept_uuids nodes.
Proof.
  rewrite elem_of_kept_uuids. split.
  - intros [w Hw]. apply latest_elem_of, elem_of_versions in Hw. eauto.
  - intros (n & Hn & Hk). apply latest_is_Some. intros He.
    assert (n ∈ versions u nodes) as Hin by (by apply elem_of_versions).
    rewrite He in Hin. by apply elem_of_nil in Hin.
Qed.

Lemma live_not_skipped n : live n <-> skipped n = false.
Proof. unfold live. by rewrite skipped_false. Qed.

Lemma live_kept u n : live n /\ attributes n !! "uuid" = Some u <-> kept u n.
Proof. unfold kept. by rewrite live_not_skipped. Qed.

Lemma elem_of_live_uuids u nodes :
  u ∈ live_uuids nodes
  <-> exists n, n ∈ nodes /\ live n /\ attributes n !! "uuid" = Some u.
Proof.
  unfold live_uuids. rewrite list_elem_of_omap. split.
  - intros (n & Hn & Hu). apply list_elem_of_filter in Hn as [Hl Hn]. eauto.
  - intros (n & Hn & Hl & Hu). exists n. split; [|exact Hu].
    apply list_elem_of_filter. by split.
Qed.

Lemma latest_is_Some_live u nodes :
  is_Some (latest (versions u nodes)) <-> u ∈ live_uuids nodes.
Proof.
  rewrite latest_is_Some_iff, elem_of_kept_uuids, elem_of_live_uuids.
  split; intros (n & Hn & H); exists n; (split; [exact Hn|]).
  - by apply live_kept.
  - by apply live_kept in H.
Qed.

(** C1. The store returns a listing; those of its nodes that have a
    non-empty file and no [deleted] attribute carry [uuid], [name] and
    [created]. Then the rebuild returns, and the keys of both maps are
    exactly the uuids of those nodes: every such node has an entry under
    its uuid, and the number of entries is the number of distinct uuids
    among them. The node recorded for a uuid is one of those nodes, with
    that uuid; none of them with that uuid is created later, and those
    listed before it are created strictly earlier (the first element of
    the descending stable sort). The name recorded is its name. *)
Theorem C1_rebuild_latest_per_uuid env st r nodes :
  requests_get env (query_url st) = Responds r ->
  answers r (Some nodes) ->
  (forall n, n ∈ nodes -> live n -> well_formed n) ->
  exists st', load_notebook_names env st = (Ok tt, st')
    /\ dom (mapping st') = list_to_set (live_uuids nodes)
    /\ dom (shock_map st') = list_to_set (live_uuids nodes)
    /\ size (mapping st') = length (remove_dups (live_uuids nodes))
    /\ (forall n u, n ∈ nodes -> live n -> attributes n !! "uuid" = Some u ->
          is_Some (mapping st' !! u) /\ is_Some (shock_map st' !! u))
    /\ forall u w, shock_map st' !! u = Some w ->
         newest_of u nodes w /\ mapping st' !! u = attributes w !! "name".
Proof.
  intros Hr Hans Hwf.
  assert (forall n, n ∈ nodes -> skipped n = false -> well_formed n) as Hwf'.
  { intros n Hn Hs. apply Hwf; [exact Hn|]. by apply live_not_skipped. }
  destruct (load_notebook_names_answers env st r nodes Hr Hans Hwf')
    as (st' & Hrun & _ & _ & _ & Hmaps).
  assert (dom (shock_map st') = list_to_set (live_uuids nodes)) as Hdom_s.
  { apply set_eq. intros u. rewrite elem_of_dom, elem_of_list_to_set.
    destruct (Hmaps u) as [-> _]. apply latest_is_Some_live. }
  assert (dom (mapping st') = list_to_set (live_uuids nodes)) as Hdom_m.
  { apply set_eq. intros u. rewrite elem_of_dom, elem_of_list_to_set.
    destruct (Hmaps u) as [_ ->]. rewrite <- latest_is_Some_live. split.
    - intros [nm Hnm]. destruct (latest (versions u nodes)); [by eexists|discriminate].
    - intros [w Hw]. rewrite Hw. simpl.
      apply latest_elem_of, elem_of_versions in Hw as [Hn [Hs _]].
      by destruct (Hwf' w Hn Hs) as (_ & ? & _). }
  exists st'. split; [exact Hrun|]. split; [exact Hdom_m|]. split; [exact Hdom_s|].
  split; [|split].
  - rewrite <- size_dom, Hdom_m.
    replace (list_to_set (live_uuids nodes) : gset string)
      with (list_to_set (remove_dups (live_uuids nodes)) : gset string).
    + apply size_list_to_set, NoDup_remove_dups.
    + apply set_eq. intros u. by rewrite !elem_of_list_to_set, elem_of_remove_dups.
  - intros n u Hn Hl Hu.
    assert (u ∈ live_uuids nodes) as Hin by (apply elem_of_live_uuids; eauto).
    rewrite <- !elem_of_dom, Hdom_m, Hdom_s, elem_of_list_to_set. by split.
  - intros u w Hw. destruct (Hmaps u) as [Hs Hm]. rewrite Hw in Hs. symmetry in Hs.
    split; [|by rewrite Hm, Hs].
    destruct (latest_versions_latest_of u nodes w Hs) as (l1 & l2 & E & Hk & H1 & H2).
    apply live_kept in Hk as [Hl Hu].
    exists l1, l2. split; [exact E|]. split; [exact Hl|]. split; [exact Hu|]. split.
    + intros n Hn Hln Hun. apply H1; [exact Hn|]. by apply live_kept.
    + intros n Hn Hln Hun. apply H2; [exact Hn|]. by apply live_kept.
Qed.

Ltac each_listed H :=
  repeat (apply elem_of_cons in H as [->|H]); [..|by apply elem_of_nil in H].

Lemma C1_rebuild_latest_per_uuid_witness :
  exists st',
    load_notebook_names
      (sample_env (Responds (answer (Some [january; june; placeholder; tombstone])))
         unreachable no_rank)
      (new_manager "http://shock" "") = (Ok tt, st')
    /\ dom (mapping st')
       = list_to_set (live_uuids [january; june; placeholder; tombstone])
    /\ dom (shock_map st')
       = list_to_set (live_uuids [january; june; placeholder; tombstone])
    /\ size (mapping st')
       = length (remove_dups (live_uuids [january; june; placeholder; tombstone]))
    /\ (forall n u, n ∈ [january; june; placeholder; tombstone] -> live n ->
          attributes n !! "uuid" = Some u ->
          is_Some (mapping st' !! u) /\ is_Some (shock_map st' !! u))
    /\ forall u w, shock_map st' !! u = Some w ->
         newest_of u [january; june; placeholder; tombstone] w
         /\ mapping st' !! u = attributes w !! "name".
Proof.
  apply (C1_rebuild_latest_per_uuid _ _
           (answer (Some [january; june; placeholder; tombstone]))).
  - reflexivity.
  - split; [reflexivity|]. split; [reflexivity|]. exists 200, None. split; reflexivity.
  - intros n Hn [Hsize Hdel]. each_listed Hn.
    + repeat split; vm_compute; eexists; reflexivity.
    + repeat split; vm_compute; eexists; reflexivity.
    + exfalso. apply Hsize. reflexivity.
    + vm_compute in Hdel. discriminate Hdel.
Defined.

(** In this listing two nodes count, both of [u1]: one entry, the node of
    June. *)
Example rebuild_counts_live_uuids :
  live_uuids [january; june; placeholder; tombstone] = ["u1"; "u1"]
  /\ map_to_list
       (shock_map
          (snd (load_notebook_names
                  (sample_env (Responds (answer (Some [january; june; placeholder;
                                                        tombstone])))
                     unreachable no_rank)
                  (new_manager "http://shock" ""))))
     = [("u1", june)].
Proof. split; vm_compute; reflexivity. Qed.

(** The example of the spec: of two versions of [u1], the one created in
    June wins over the one created in January. *)
Example latest_wins :
  shock_map
    (snd (load_notebook_names
            (sample_env (Responds (answer (Some [january; june]))) unreachable no_rank)
            (new_manager "http://shock" ""))) !! "u1" = Some june
  /\ mapping
       (snd (load_notebook_names
               (sample_env (Responds (answer (Some [january; june]))) unreachable no_rank)
               (new_manager "http://shock" ""))) !! "u1" = Some "final".
Proof. split; vm_compute; reflexivity. Qed.

(** C8. A query that the store answers with no object, an empty list or
    [null], is a success: the rebuild returns, and both maps are empty
    afterwards. *)
Theorem C8_empty_listing_is_success env st r d :
  requests_get env (query_url st) = Responds r ->
  answers r d ->
  d = Some [] \/ d = None ->
  exists st', load_notebook_names env st = (Ok tt, st')
    /\ mapping st' = ∅ /\ shock_map st' = ∅.
Proof.
  intros Hr Hans Hd. rewrite load_notebook_names_unfold.
  rewrite (getShock_answers env _ _ r d Hr Hans).
  exists (log_request (Get (query_url st)) (cleared st)).
  destruct Hd as [-> | ->]; cbn [fold_each]; unfold bind, ret;
    rewrite dict_items_empty; repeat split; reflexivity.
Qed.

Lemma C8_empty_listing_is_success_witness :
  exists st',
    load_notebook_names (sample_env (Responds (answer (Some []))) unreachable no_rank)
      (sample_manager [("u1", june)]) = (Ok tt, st')
    /\ mapping st' = ∅ /\ shock_map st' = ∅.
Proof.
  apply (C8_empty_listing_is_success _ _ (answer (Some [])) (Some [])).
  - reflexivity.
  - split; [reflexivity|]. split; [reflexivity|]. exists 200, None. split; reflexivity.
  - left. reflexivity.
Defined.

(** C2, as the code has it. When the listing fails, whatever the error,
    the rebuild fails with that error, and both maps are empty afterwards:
    they are emptied before the store is asked, so the entries of the
    prior mapping are lost. *)
Theorem C2_failed_listing_empties_maps env st e :
  fst (getShock env (query_url st) "json" st) = Raise e ->
  exists st', load_notebook_names env st = (Raise e, st')
    /\ mapping st' = ∅ /\ shock_map st' = ∅
    /\ shock_url st' = shock_url st /\ shock_user st' = shock_user st.
Proof.
  intros He. rewrite load_notebook_names_unfold.
  rewrite (getShock_result env _ _ st (cleared st)) in He.
  pose proof (getShock_state env (query_url st) "json" (cleared st)) as Hst.
  destruct (getShock env (query_url st) "json" (cleared st)) as [res st1].
  simpl in He, Hst. subst res st1.
  eexists. split; [reflexivity|]. repeat split; reflexivity.
Qed.

Lemma C2_failed_listing_empties_maps_witness :
  exists st',
    load_notebook_names (sample_env unreachable unreachable no_rank)
      (sample_manager [("u1", june)])
    = (Raise (HTTPError 400 "Unable to connect to SHOCK server"), st')
    /\ mapping st' = ∅ /\ shock_map st' = ∅
    /\ shock_url st' = "http://shock" /\ shock_user st' = "".
Proof.
  apply (C2_failed_listing_empties_maps
           (sample_env unreachable unreachable no_rank) (sample_manager [("u1", june)])).
  reflexivity.
Defined.

(** C2, as the spec has it, fails: the store is unreachable, the rebuild
    fails, and the entry that the mapping had for [u1] is gone. *)
Lemma C2_prior_mapping_lost :
  fst (load_notebook_names (sample_env unreachable unreachable no_rank)
         (sample_manager [("u1", june)]))
  = Raise (HTTPError 400 "Unable to connect to SHOCK server")
  /\ mapping (sample_manager [("u1", june)]) !! "u1" = Some "final"
  /\ mapping (snd (load_notebook_names (sample_env unreachable unreachable no_rank)
                     (sample_manager [("u1", june)]))) !! "u1" = None
  /\ mapping (snd (load_notebook_names (sample_env unreachable unreachable no_rank)
                     (sample_manager [("u1", june)])))
     <> mapping (sample_manager [("u1", june)]).
Proof.
  split; [vm_compute; reflexivity|]. split; [vm_compute; reflexivity|].
  split; [vm_compute; reflexivity|].
  intros H. apply (f_equal (fun m => m !! "u1")) in H. vm_compute in H. discriminate H.
Qed.

(** C3. The claim holds of the specification and fails on the code of the
    query. The server answers a query with a body that has ['S'] and ['D']
    and no ['E']. [getShock] does not return, but what it raises is not
    the [HTTPError(415)] that it builds for a malformed answer: the
    message reads the local [e], which is assigned only when the request
    itself fails, so the query ends with [UnboundLocalError], and so does
    the rebuild. On the same body [postShock] raises the [HTTPError(400)]
    of a failed POST. *)
Theorem C3_query_missing_error_field :
  getShock (sample_env (Responds (answer_without_E (Some [june]))) unreachable no_rank)
    "http://shock/node?query&type=ipynb" "json" (new_manager "http://shock" "")
  = (Raise (UnboundLocalError "e"),
     log_request (Get "http://shock/node?query&type=ipynb") (new_manager "http://shock" ""))
  /\ fst (load_notebook_names
            (sample_env (Responds (answer_without_E (Some [june]))) unreachable no_rank)
            (new_manager "http://shock" ""))
     = Raise (UnboundLocalError "e")
  /\ fst (postShock
            (sample_env unreachable (Responds (answer_without_E june)) no_rank)
            "http://shock/node" "analysis" "cells" "{}" (new_manager "http://shock" ""))
     = Raise (HTTPError 400 "Unable to POST to SHOCK server").
Proof. repeat split; vm_compute; reflexivity. Qed.

(** C5, as the code has it. [list_notebooks] returns, and leaves the
    manager as it is: it sends nothing to the store. Its result has one
    record per entry of the mapping, and is sorted by name, ascending.
    Records of the same name are in the order in which the mapping is
    iterated: the sort is stable and has the name as its only key. *)
Theorem C5_list_sorted_by_name env st :
  exists data, list_notebooks env st = (Ok data, st)
    /\ data ≡ₚ (fun kv => NbInfo (fst kv) (snd kv)) <$> map_to_list (mapping st)
    /\ StronglySorted (fun a b => String.leb (name a) (name b) = true) data
    /\ forall nm,
         filter (fun i => name i = nm) data
         = filter (fun i => name i = nm)
             ((fun kv => NbInfo (fst kv) (snd kv))
                <$> dict_items (dict_rank env) (mapping st)).
Proof.
  rewrite list_notebooks_unfold. eexists. split; [reflexivity|]. split; [|split].
  - rewrite (sorted_perm String.leb name false).
    apply fmap_Permutation, dict_items_perm.
  - apply (sorted_strongly String.leb name false String.leb_total string_leb_trans).
  - intros nm. apply (sorted_stable String.leb name false String.leb_total).
Qed.

(** C5, as the spec has it, fails: two notebooks have the same name, the
    mapping is iterated in the order of the hash table, [c] before [b],
    and the list has them in that order, not in the order of the
    identifiers. *)
Lemma C5_ties_not_by_identifier :
  fst (list_notebooks (sample_env unreachable unreachable slot_rank)
         (sample_manager [("b", notes_b); ("c", notes_c)]))
  = Ok [NbInfo "c" "notes"; NbInfo "b" "notes"]
  /\ ~ name_then_id (NbInfo "c" "notes") (NbInfo "b" "notes").
Proof.
  split; [vm_compute; reflexivity|].
  intros [H|[_ H]]; vm_compute in H; discriminate H.
Qed.

(** C6, as the code has it. For a notebook that exists, whose node is
    downloaded and decoded, and whose node has a [created] attribute:
    when the attribute is not empty and is parsed, the date returned is
    the parsed date; when it is empty, the date returned is the current
    time, in ISO format. *)
Theorem C6_last_modified env id st w r nb dt :
  notebook_exists id st = true ->
  shock_map st !! id = Some w ->
  requests_get env (shock_url st ++ "/node/" ++ node_id w ++ "?download") = Responds r ->
  ok r = true -> truthy (text r) = true ->
  current_reads env (text r) = Some nb ->
  attributes w !! "created" = Some dt ->
  (forall d, dt <> "" -> dateutil_parse env dt = Some d ->
     fst (read_notebook_object env id st) = Ok (Parsed d, nb))
  /\ (dt = "" ->
     fst (read_notebook_object env id st) = Ok (IsoNow (now_isoformat env), nb)).
Proof.
  intros Hex Hw Hr Hok Htext Hnb Hdt.
  rewrite (read_notebook_object_unfold env id st w Hex Hw). cbn zeta.
  rewrite (getShock_data env _ st r Hr Hok Htext). cbn [fst].
  rewrite Hnb, Hdt. split.
  - intros d Hne Hd. apply truthy_true in Hne. rewrite Hne, Hd. reflexivity.
  - intros ->. reflexivity.
Qed.

Lemma C6_last_modified_witness :
  (forall d, "2012-06-01T00:00:00" <> "" ->
     dateutil_parse (sample_env (Responds (Response true "cells" None)) unreachable no_rank)
       "2012-06-01T00:00:00" = Some d ->
     fst (read_notebook_object
            (sample_env (Responds (Response true "cells" None)) unreachable no_rank)
            "u1" (sample_manager [("u1", june)]))
     = Ok (Parsed d, Notebook ∅ "cells"))
  /\ ("2012-06-01T00:00:00" = "" ->
     fst (read_notebook_object
            (sample_env (Responds (Response true "cells" None)) unreachable no_rank)
            "u1" (sample_manager [("u1", june)]))
     = Ok (IsoNow "2014-01-01T00:00:00", Notebook ∅ "cells")).
Proof.
  apply (C6_last_modified
           (sample_env (Responds (Response true "cells" None)) unreachable no_rank)
           "u1" (sample_manager [("u1", june)]) june (Response true "cells" None)).
  - vm_compute; reflexivity.
  - vm_compute; reflexivity.
  - reflexivity.
  - reflexivity.
  - reflexivity.
  - reflexivity.
  - vm_compute; reflexivity.
Defined.

(** C6, as the spec has it, fails: the node of the notebook has no
    [created] attribute, the notebook is downloaded and decoded, and the
    read fails with [KeyError] instead of returning the current time. *)
Lemma C6_absent_created_raises :
  notebook_exists "u5" (sample_manager [("u5", undated)]) = true
  /\ attributes undated !! "created" = None
  /\ fst (read_notebook_object
            (sample_env (Responds (Response true "cells" None)) unreachable no_rank)
            "u5" (sample_manager [("u5", undated)]))
     = Raise (KeyError "created").
Proof. repeat split; vm_compute; reflexivity. Qed.

Example read_blank_date :
  fst (read_notebook_object
         (sample_env (Responds (Response true "cells" None)) unreachable no_rank)
         "u6" (sample_manager [("u6", blank_date)]))
  = Ok (IsoNow "2014-01-01T00:00:00", Notebook ∅ "cells").
Proof. vm_compute. reflexivity. Qed.

(** C7. For a notebook that exists, [delete_notebook] returns, removes the
    identifier from both maps and sends nothing to the store; the notebook
    does not exist afterwards. When the store is then asked for its
    listing and the node that backed the notebook is still listed, with
    a file, not tagged as deleted, under the same uuid, the rebuild
    returns and the notebook exists again. *)
Theorem C7_delete_is_local env id st w r nodes :
  notebook_exists id st = true ->
  shock_map st !! id = Some w ->
  requests_get env (query_url st) = Responds r ->
  answers r (Some nodes) ->
  (forall n, n ∈ nodes -> skipped n = false -> well_formed n) ->
  w ∈ nodes -> file_size w <> 0 -> attributes w !! "deleted" = None ->
  attributes w !! "uuid" = Some id ->
  exists st1 st2,
    delete_notebook id st = (Ok tt, st1)
    /\ mapping st1 = delete id (mapping st)
    /\ shock_map st1 = delete id (shock_map st)
    /\ sent st1 = sent st
    /\ notebook_exists id st1 = false
    /\ load_notebook_names env st1 = (Ok tt, st2)
    /\ notebook_exists id st2 = true.
Proof.
  intros Hex Hw Hr Hans Hwf Hin Hsize Hdel Huuid.
  rewrite delete_notebook_unfold, Hex.
  set (st1 := set_shock_map (delete id) (set_mapping (delete id) st)).
  destruct (load_notebook_names_answers env st1 r nodes Hr Hans Hwf)
    as (st2 & Hrun & _ & _ & _ & Hmaps).
  exists st1, st2. split; [reflexivity|]. split; [reflexivity|]. split; [reflexivity|].
  split; [reflexivity|]. split.
  - unfold notebook_exists. simpl. rewrite lookup_delete_eq.
    rewrite (bool_decide_eq_false_2 (is_Some None)); [reflexivity|].
    intros [? ?]; discriminate.
  - split; [exact Hrun|]. apply notebook_exists_true.
    destruct (Hmaps id) as [Hs Hm].
    assert (is_Some (latest (versions id nodes))) as [v Hv].
    { apply latest_is_Some_iff, elem_of_kept_uuids. exists w. split; [exact Hin|].
      split; [|exact Huuid]. by apply skipped_false. }
    rewrite !elem_of_dom, Hs, Hm, Hv. split; [|by eexists]. simpl.
    apply latest_elem_of, elem_of_versions in Hv as [Hv [Hk _]].
    by destruct (Hwf v Hv Hk) as (_ & ? & _).
Qed.

Lemma C7_delete_is_local_witness :
  exists st1 st2,
    delete_notebook "u1" (sample_manager [("u1", june)]) = (Ok tt, st1)
    /\ mapping st1 = delete "u1" (mapping (sample_manager [("u1", june)]))
    /\ shock_map st1 = delete "u1" (shock_map (sample_manager [("u1", june)]))
    /\ sent st1 = sent (sample_manager [("u1", june)])
    /\ notebook_exists "u1" st1 = false
    /\ load_notebook_names
         (sample_env (Responds (answer (Some [january; june]))) unreachable no_rank) st1
       = (Ok tt, st2)
    /\ notebook_exists "u1" st2 = true.
Proof.
  apply (C7_delete_is_local
           (sample_env (Responds (answer (Some [january; june]))) unreachable no_rank)
           "u1" (sample_manager [("u1", june)]) june
           (answer (Some [january; june])) [january; june]).
  - vm_compute; reflexivity.
  - vm_compute; reflexivity.
  - reflexivity.
  - split; [reflexivity|]. split; [reflexivity|]. exists 200, None. split; reflexivity.
  - intros n Hn Hs. each_listed Hn.
    all: repeat split; vm_compute; eexists; reflexivity.
  - right. left.
  - vm_compute; discriminate.
  - vm_compute; reflexivity.
  - vm_compute; reflexivity.
Defined.

Lemma stamped_lookups env user id nb :
  metadata (stamped env user id nb) !! "uuid" = Some id
  /\ metadata (stamped env user id nb) !! "type" = Some "ipynb"
  /\ metadata (stamped env user id nb) !! "user"
     = Some (if truthy user then user else "public")
  /\ metadata (stamped env user id nb) !! "created" = Some (now_isoformat env).
Proof.
  unfold stamped. simpl. repeat split.
  - by rewrite lookup_insert_eq.
  - rewrite lookup_insert_ne by done. by rewrite lookup_insert_eq.
  - do 2 rewrite lookup_insert_ne by done. by rewrite lookup_insert_eq.
  - do 3 rewrite lookup_insert_ne by done. by rewrite lookup_insert_eq.
Qed.

(** C10. For a document with a name and an identifier that is not in the
    mapping, [write_notebook_object] raises the 404 error and leaves the
    manager as it is, but the caller's object has been assigned [created],
    [user], [type] and [uuid] before the test: it carries these four
    values afterwards, and it is the object that was passed only if that
    one carried the same four values already. *)
Theorem C10_unknown_id_stamps_document env nb nm id st :
  metadata nb !! "name" = Some nm ->
  mapping st !! id = None ->
  write_notebook_object env (Some id) (nb, st)
  = (Raise (HTTPError 404 "Notebook does not exist"),
     (stamped env (shock_user st) id nb, st))
  /\ metadata (stamped env (shock_user st) id nb) !! "uuid" = Some id
  /\ metadata (stamped env (shock_user st) id nb) !! "type" = Some "ipynb"
  /\ metadata (stamped env (shock_user st) id nb) !! "user"
     = Some (if truthy (shock_user st) then shock_user st else "public")
  /\ metadata (stamped env (shock_user st) id nb) !! "created" = Some (now_isoformat env)
  /\ (stamped env (shock_user st) id nb = nb ->
      metadata nb !! "uuid" = Some id
      /\ metadata nb !! "type" = Some "ipynb"
      /\ metadata nb !! "user"
         = Some (if truthy (shock_user st) then shock_user st else "public")
      /\ metadata nb !! "created" = Some (now_isoformat env)).
Proof.
  intros Hnm Hid. split.
  - rewrite write_notebook_object_unfold, Hnm. cbn zeta. simpl default. rewrite Hid.
    rewrite (bool_decide_eq_false_2 (is_Some None)); [reflexivity|].
    intros [? ?]; discriminate.
  - pose proof (stamped_lookups env (shock_user st) id nb) as (H1 & H2 & H3 & H4).
    repeat (split; [assumption|]).
    intros E. rewrite E in H1, H2, H3, H4. auto.
Qed.

Lemma C10_unknown_id_stamps_document_witness :
  write_notebook_object (sample_env unreachable unreachable no_rank) (Some "u9")
    (sample_notebook, sample_manager [("u1", june)])
  = (Raise (HTTPError 404 "Notebook does not exist"),
     (stamped (sample_env unreachable unreachable no_rank) "" "u9" sample_notebook,
      sample_manager [("u1", june)]))
  /\ metadata (stamped (sample_env unreachable unreachable no_rank) "" "u9" sample_notebook)
       !! "uuid" = Some "u9"
  /\ metadata (stamped (sample_env unreachable unreachable no_rank) "" "u9" sample_notebook)
       !! "type" = Some "ipynb"
  /\ metadata (stamped (sample_env unreachable unreachable no_rank) "" "u9" sample_notebook)
       !! "user" = Some "public"
  /\ metadata (stamped (sample_env unreachable unreachable no_rank) "" "u9" sample_notebook)
       !! "created" = Some "2014-01-01T00:00:00"
  /\ (stamped (sample_env unreachable unreachable no_rank) "" "u9" sample_notebook
      = sample_notebook ->
      metadata sample_notebook !! "uuid" = Some "u9"
      /\ metadata sample_notebook !! "type" = Some "ipynb"
      /\ metadata sample_notebook !! "user" = Some "public"
      /\ metadata sample_notebook !! "created" = Some "2014-01-01T00:00:00").
Proof.
  apply (C10_unknown_id_stamps_document
           (sample_env unreachable unreachable no_rank) sample_notebook "analysis" "u9"
           (sample_manager [("u1", june)])).
  - vm_compute; reflexivity.
  - vm_compute; reflexivity.
Defined.

(** A write without an identifier, step by step, for a document with a
    name: the minted identifier is entered in the mapping, so the test on
    the mapping passes. *)
Lemma write_new_unfold env nb nm st :
  metadata nb !! "name" = Some nm ->
  write_notebook_object env None (nb, st)
  = match current_writes env (stamped env (shock_user st) (uuid4 env) nb) with
    | None =>
        (Raise (HTTPError 400 "Unexpected error while saving notebook"),
         (stamped env (shock_user st) (uuid4 env) nb,
          set_mapping (insert (uuid4 env) nm) st))
    | Some data =>
        match postShock env (shock_url st ++ "/node") nm data
                (json_dumps env (metadata (stamped env (shock_user st) (uuid4 env) nb)))
                (set_mapping (insert (uuid4 env) nm) st) with
        | (Ok shock_node, st2) =>
            (Ok (uuid4 env),
             (stamped env (shock_user st) (uuid4 env) nb,
              set_shock_map (insert (uuid4 env) shock_node)
                (set_mapping (insert (uuid4 env) nm) st2)))
        | (Raise _, st2) =>
            (Raise (HTTPError 400 "Unexpected error while saving notebook"),
             (stamped env (shock_user st) (uuid4 env) nb, st2))
        end
    end.
Proof.
  intros Hnm. rewrite write_notebook_object_unfold, Hnm. cbn zeta.
  change (default (uuid4 env) None) with (uuid4 env).
  assert (bool_decide (is_Some (mapping (set_mapping (insert (uuid4 env) nm) st)
                                  !! uuid4 env)) = true) as ->.
  { apply bool_decide_eq_true_2. simpl. rewrite lookup_insert_eq. by eexists. }
  reflexivity.
Qed.

(** The manager after a write without an identifier, whatever the
    outcome: the minted identifier is in the mapping under the name of the
    document; [shock_map] has the node of the store under it when the
    write returned, and is as it was when the write raised. *)
Lemma write_new_state env nb nm st :
  metadata nb !! "name" = Some nm ->
  ((fst (write_notebook_object env None (nb, st)) = Ok (uuid4 env)
    /\ (exists n,
        shock_map (snd (snd (write_notebook_object env None (nb, st))))
        = <[uuid4 env := n]> (shock_map st)
        /\ (forall data r n',
              current_writes env (stamped env (shock_user st) (uuid4 env) nb) = Some data ->
              requests_post env (shock_url st ++ "/node") (nm ++ ".ipynb", data)
                (nm ++ "_metadata.json",
                 json_dumps env (metadata (stamped env (shock_user st) (uuid4 env) nb)))
              = Responds r ->
              accepted r n' -> n' = n)))
   \/ fst (write_notebook_object env None (nb, st))
      = Raise (HTTPError 400 "Unexpected error while saving notebook")
      /\ shock_map (snd (snd (write_notebook_object env None (nb, st))))
         = shock_map st
      /\ (forall data r n',
            current_writes env (stamped env (shock_user st) (uuid4 env) nb) = Some data ->
            requests_post env (shock_url st ++ "/node") (nm ++ ".ipynb", data)
              (nm ++ "_metadata.json",
               json_dumps env (metadata (stamped env (shock_user st) (uuid4 env) nb)))
            = Responds r ->
            accepted r n' -> False))
  /\ mapping (snd (snd (write_notebook_object env None (nb, st))))
     = <[uuid4 env := nm]> (mapping st).
Proof.
  intros Hnm. rewrite (write_new_unfold env nb nm st Hnm).
  destruct (current_writes env _) as [data|] eqn:Hdata.
  2: { split; [|reflexivity]. right. split; [reflexivity|]. split; [reflexivity|].
       intros data r n' H. discriminate H. }
  pose proof (postShock_state env (shock_url st ++ "/node") nm data
                (json_dumps env (metadata (stamped env (shock_user st) (uuid4 env) nb)))
                (set_mapping (insert (uuid4 env) nm) st)) as Hst.
  destruct (postShock env _ nm data _ _) as [[n|e] st2] eqn:Hpost;
    simpl in Hst; subst st2.
  - split; [|simpl; apply insert_insert_eq]. left. split; [reflexivity|].
    exists n. split; [reflexivity|].
    intros data' r n' [= <-] Hr Hacc.
    rewrite (postShock_accepted env _ nm data _ _ r n' Hr Hacc) in Hpost. congruence.
  - split; [|reflexivity]. right. split; [reflexivity|]. split; [reflexivity|].
    intros data' r n' [= <-] Hr Hacc.
    rewrite (postShock_accepted env _ nm data _ _ r n' Hr Hacc) in Hpost. congruence.
Qed.



(** An accepted write of a new document, run: the identifier is returned
    and the notebook exists. *)
Example write_new_document_run :
  fst (write_notebook_object accepting_env None
         (sample_notebook, sample_manager [("u1", june)])) = Ok "0b1a"
  /\ notebook_exists "0b1a"
       (snd (snd (write_notebook_object accepting_env None
                    (sample_notebook, sample_manager [("u1", june)])))) = true.
Proof. split; vm_compute; reflexivity. Qed.


Lemma new_manager_keys_agree url user : keys_agree (new_manager url user).
Proof. reflexivity. Qed.

(** C9, as the code has it. Before its first rebuild a manager shares
    [shock_map] with the other managers and the keys of its two maps need
    not agree. From a rebuild on, whether the rebuild returns or raises,
    and whatever the manager was before, the two maps have the same keys
    after every operation, returning or raising, as long as no write of a
    new document fails; a notebook exists if and only if its identifier
    is a key of both maps. A write of a new document with a name that
    fails leaves the minted identifier in the mapping, under the name, and
    [shock_map] as it was: when the keys agreed and the identifier was
    new, they do not agree any more. *)
Theorem C9_keys_agree_after_rebuild env0 st0 calls id :
  no_failed_new_write calls (snd (run env0 LoadNotebookNames st0)) ->
  keys_agree (run_all ((env0, LoadNotebookNames) :: calls) st0)
  /\ (notebook_exists id (run_all ((env0, LoadNotebookNames) :: calls) st0) = true
      <-> id ∈ dom (mapping (run_all ((env0, LoadNotebookNames) :: calls) st0))
          /\ id ∈ dom (shock_map (run_all ((env0, LoadNotebookNames) :: calls) st0)))
  /\ forall env nb nm st,
       metadata nb !! "name" = Some nm ->
       completed (fst (write_notebook_object env None (nb, st))) = false ->
       mapping (snd (snd (write_notebook_object env None (nb, st))))
       = <[uuid4 env := nm]> (mapping st)
       /\ shock_map (snd (snd (write_notebook_object env None (nb, st)))) = shock_map st
       /\ (keys_agree st -> uuid4 env ∉ dom (mapping st) ->
           ~ keys_agree (snd (snd (write_notebook_object env None (nb, st))))).
Proof.
  intros Hs. split; [|split; [apply notebook_exists_true|]].
  - cbn [run_all]. apply run_all_keys_agree; [|exact Hs].
    simpl. pose proof (load_notebook_names_keys_agree env0 st0) as H.
    by destruct (load_notebook_names env0 st0).
  - intros env nb nm st Hnm Hfail.
    destruct (write_new_state env nb nm st Hnm) as [[[Hok _]|(_ & Hsm & _)] Hm].
    { rewrite Hok in Hfail. discriminate Hfail. }
    split; [exact Hm|]. split; [exact Hsm|].
    intros Hk Hfresh Hk'. unfold keys_agree in Hk, Hk'.
    rewrite Hm, Hsm, dom_insert_L, <- Hk in Hk'.
    apply Hfresh. rewrite <- Hk'. apply elem_of_union_l. by apply elem_of_singleton.
Qed.

Lemma C9_keys_agree_after_rebuild_witness :
  keys_agree
    (run_all
       [(sample_env (Responds (answer (Some [january; june]))) unreachable no_rank,
         LoadNotebookNames);
        (sample_env unreachable (Responds (answer notes_b)) no_rank,
         WriteNotebookObject sample_notebook None);
        (sample_env unreachable unreachable no_rank, DeleteNotebook "u1")]
       (created_manager "http://shock" "" {[ "0b1a" := june ]}))
  /\ (notebook_exists "0b1a"
        (run_all
           [(sample_env (Responds (answer (Some [january; june]))) unreachable no_rank,
             LoadNotebookNames);
            (sample_env unreachable (Responds (answer notes_b)) no_rank,
             WriteNotebookObject sample_notebook None);
            (sample_env unreachable unreachable no_rank, DeleteNotebook "u1")]
           (created_manager "http://shock" "" {[ "0b1a" := june ]})) = true
      <-> "0b1a" ∈ dom (mapping
            (run_all
               [(sample_env (Responds (answer (Some [january; june]))) unreachable no_rank,
                 LoadNotebookNames);
                (sample_env unreachable (Responds (answer notes_b)) no_rank,
                 WriteNotebookObject sample_notebook None);
                (sample_env unreachable unreachable no_rank, DeleteNotebook "u1")]
               (created_manager "http://shock" "" {[ "0b1a" := june ]})))
          /\ "0b1a" ∈ dom (shock_map
            (run_all
               [(sample_env (Responds (answer (Some [january; june]))) unreachable no_rank,
                 LoadNotebookNames);
                (sample_env unreachable (Responds (answer notes_b)) no_rank,
                 WriteNotebookObject sample_notebook None);
                (sample_env unreachable unreachable no_rank, DeleteNotebook "u1")]
               (created_manager "http://shock" "" {[ "0b1a" := june ]}))))
  /\ forall env nb nm st,
       metadata nb !! "name" = Some nm ->
       completed (fst (write_notebook_object env None (nb, st))) = false ->
       mapping (snd (snd (write_notebook_object env None (nb, st))))
       = <[uuid4 env := nm]> (mapping st)
       /\ shock_map (snd (snd (write_notebook_object env None (nb, st)))) = shock_map st
       /\ (keys_agree st -> uuid4 env ∉ dom (mapping st) ->
           ~ keys_agree (snd (snd (write_notebook_object env None (nb, st))))).
Proof.
  apply (C9_keys_agree_after_rebuild
           (sample_env (Responds (answer (Some [january; june]))) unreachable no_rank)
           (created_manager "http://shock" "" {[ "0b1a" := june ]})
           [(sample_env unreachable (Responds (answer notes_b)) no_rank,
             WriteNotebookObject sample_notebook None);
            (sample_env unreachable unreachable no_rank, DeleteNotebook "u1")]
           "0b1a").
  cbn [no_failed_new_write]. repeat split; left; vm_compute; reflexivity.
Defined.

(** C9, as it is stated, fails, in two ways. A manager is created when the
    shared [shock_map] holds a key, left there by another manager: the
    list of its notebooks is asked for and returned, and after this
    operation [shock_map] has a key that the mapping has not. And, for a
    new manager with nothing shared: the store cannot be reached, the
    write of a new document fails after the identifier has been entered
    in the mapping, the list of the notebooks is then asked for and
    returned; after this operation the identifier is a key of the mapping
    and not of [shock_map], and the list shows a notebook that does not
    exist. *)
Lemma C9_keys_can_disagree :
  (fst (run (sample_env unreachable unreachable no_rank) ListNotebooks
          (created_manager "http://shock" "" {[ "u1" := june ]})) = true
   /\ mapping (snd (run (sample_env unreachable unreachable no_rank) ListNotebooks
                      (created_manager "http://shock" "" {[ "u1" := june ]}))) !! "u1"
      = None
   /\ shock_map (snd (run (sample_env unreachable unreachable no_rank) ListNotebooks
                        (created_manager "http://shock" "" {[ "u1" := june ]}))) !! "u1"
      = Some june
   /\ ~ keys_agree (snd (run (sample_env unreachable unreachable no_rank) ListNotebooks
                            (created_manager "http://shock" "" {[ "u1" := june ]}))))
  /\ fst (run (sample_env unreachable unreachable no_rank)
            (WriteNotebookObject sample_notebook None) (new_manager "http://shock" ""))
     = false
  /\ fst (list_notebooks (sample_env unreachable unreachable no_rank)
            (snd (run (sample_env unreachable unreachable no_rank)
                    (WriteNotebookObject sample_notebook None)
                    (new_manager "http://shock" ""))))
     = Ok [NbInfo "0b1a" "analysis"]
  /\ notebook_exists "0b1a"
       (run_all
          [(sample_env unreachable unreachable no_rank,
            WriteNotebookObject sample_notebook None);
           (sample_env unreachable unreachable no_rank, ListNotebooks)]
          (new_manager "http://shock" "")) = false
  /\ ~ keys_agree
       (run_all
          [(sample_env unreachable unreachable no_rank,
            WriteNotebookObject sample_notebook None);
           (sample_env unreachable unreachable no_rank, ListNotebooks)]
          (new_manager "http://shock" "")).
Proof.
  split.
  { split; [vm_compute; reflexivity|]. split; [vm_compute; reflexivity|].
    split; [vm_compute; reflexivity|].
    intros H. unfold keys_agree in H.
    assert ("u1" ∈ dom (mapping
              (snd (run (sample_env unreachable unreachable no_rank) ListNotebooks
                      (created_manager "http://shock" "" {[ "u1" := june ]}))))) as Hin.
    { rewrite H. apply elem_of_dom. vm_compute. by eexists. }
    apply elem_of_dom in Hin as [n Hn]. vm_compute in Hn. discriminate Hn. }
  split; [vm_compute; reflexivity|]. split; [vm_compute; reflexivity|].
  split; [vm_compute; reflexivity|].
  intros H. unfold keys_agree in H.
  assert ("0b1a" ∈ dom (shock_map
            (run_all
               [(sample_env unreachable unreachable no_rank,
                 WriteNotebookObject sample_notebook None);
                (sample_env unreachable unreachable no_rank, ListNotebooks)]
               (new_manager "http://shock" "")))) as Hin.
  { rewrite <- H. apply elem_of_dom. vm_compute. by eexists. }
  apply elem_of_dom in Hin as [n Hn]. vm_compute in Hn. discriminate Hn.
Qed.

(** ** Further properties of the SHOCK client *)

Lemma valid_envelope_true {D} (rj : option (envelope D)) :
  valid_envelope rj = true ->
  exists s d e, rj = Some (Envelope (Some s) (Some d) (Some e)).
Proof.
  unfold valid_envelope. destruct rj as [[s d e]|]; [|discriminate]. simpl.
  rewrite !andb_true_iff, !bool_decide_eq_true.
  intros [[[s' ->] [d' ->]] [e' ->]]. eauto.
Qed.

(** X1. A query returns data exactly when the response is [ok], has a body,
    and carries an envelope with the three fields and no error; what it
    returns is the field ['D'] of that envelope. It never returns the raw
    body. *)
Theorem X1_query_returns_iff_answered env url st d :
  (fst (getShock env url "json" st) = Ok (inr d)
   <-> exists r, requests_get env url = Responds r /\ answers r d)
  /\ forall body, fst (getShock env url "json" st) <> Ok (inl body).
Proof.
  split; [split|].
  - unfold getShock. run_py.
    destruct (requests_get env url) as [e|r]; simpl; [discriminate|].
    destruct (ok r) eqn:Eok; simpl; [|discriminate].
    destruct (truthy (text r)) eqn:Etext; simpl; [|discriminate].
    destruct (valid_envelope (json r)) eqn:Ev; simpl; [|discriminate].
    destruct (valid_envelope_true _ Ev) as (s & d' & e & Hj). rewrite Hj. simpl.
    destruct (truthy_opt e) eqn:Ee; simpl; [discriminate|].
    intros [= ->]. exists r. split; [reflexivity|].
    split; [exact Eok|]. split; [exact Etext|]. exists s, e. auto.
  - intros (r & Hr & Hans). by rewrite (getShock_answers env url st r d Hr Hans).
  - intros body. unfold getShock. run_py.
    destruct (requests_get env url) as [e|r]; simpl; [discriminate|].
    destruct (ok r), (truthy (text r)); simpl; try discriminate.
    destruct (valid_envelope (json r)) eqn:Ev; simpl; [|discriminate].
    destruct (valid_envelope_true _ Ev) as (s & d' & e & Hj). rewrite Hj. simpl.
    destruct (truthy_opt e); discriminate.
Qed.

(** X2. With a format other than ['json'] the envelope is not looked at:
    the body is returned exactly when the response is [ok] and the body is
    not empty, whatever the JSON in it. *)
Theorem X2_download_returns_body env url format st body :
  String.eqb format "json" = false ->
  fst (getShock env url format st) = Ok (inl body)
  <-> exists r, requests_get env url = Responds r
        /\ ok r = true /\ truthy (text r) = true /\ text r = body.
Proof.
  intros Hf. unfold getShock. run_py. rewrite Hf.
  destruct (requests_get env url) as [e|r]; simpl.
  - split; [discriminate|]. intros (r & Hr & _). discriminate.
  - destruct (ok r) eqn:Eok, (truthy (text r)) eqn:Etext; simpl.
    + split.
      * intros [= <-]. exists r. auto.
      * intros (r' & [= <-] & _ & _ & ->). reflexivity.
    + split; [discriminate|]. intros (r' & [= <-] & _ & H & _). congruence.
    + split; [discriminate|]. intros (r' & [= <-] & H & _). congruence.
    + split; [discriminate|]. intros (r' & [= <-] & H & _). congruence.
Qed.

Lemma X2_download_returns_body_witness :
  fst (getShock (sample_env (Responds (answer_without_E (Some [june]))) unreachable no_rank)
         "http://shock/node/o2?download" "data" (new_manager "http://shock" ""))
  = Ok (inl "{...}")
  <-> exists r,
        requests_get (sample_env (Responds (answer_without_E (Some [june]))) unreachable no_rank)
          "http://shock/node/o2?download" = Responds r
        /\ ok r = true /\ truthy (text r) = true /\ text r = "{...}".
Proof.
  apply (X2_download_returns_body
           (sample_env (Responds (answer_without_E (Some [june]))) unreachable no_rank)).
  reflexivity.
Defined.





(** X5. A creation returns a node exactly when the response is [ok] and
    carries an envelope with the three fields and no error; the body of
    the response is not tested, unlike for a query. *)
Theorem X5_creation_returns_iff_accepted env url nm data attr st n :
  fst (postShock env url nm data attr st) = Ok n
  <-> exists r,
        requests_post env url (nm ++ ".ipynb", data) (nm ++ "_metadata.json", attr)
          = Responds r
        /\ accepted r n.
Proof.
  unfold postShock. run_py.
  destruct (requests_post env url _ _) as [e|r]; simpl.
  { split; [discriminate|]. intros (r & Hr & _). discriminate. }
  split.
  - destruct (ok r) eqn:Eok; simpl; [|discriminate].
    destruct (valid_envelope (json r)) eqn:Ev; simpl; [|discriminate].
    destruct (valid_envelope_true _ Ev) as (s & d' & e & Hj). rewrite Hj. simpl.
    destruct (truthy_opt e) eqn:Ee; simpl; [discriminate|].
    intros [= ->]. exists r. split; [reflexivity|]. split; [exact Eok|].
    exists s, e. auto.
  - intros (r' & [= <-] & Hok & s & e & Hj & He).
    unfold valid_envelope. rewrite Hok, Hj. simpl. rewrite He. reflexivity.
Qed.

(** ** Further properties of the rebuild *)







(** X8. The result of a rebuild depends on the listing only: two
    managers, whatever their entries, and two runs that iterate dicts in
    different orders, end with the same two maps when the store answers
    both with the same listing. *)
Theorem X8_rebuild_depends_on_listing_only env1 env2 st1 st2 r1 r2 nodes :
  requests_get env1 (query_url st1) = Responds r1 -> answers r1 (Some nodes) ->
  requests_get env2 (query_url st2) = Responds r2 -> answers r2 (Some nodes) ->
  (forall n, n ∈ nodes -> skipped n = false -> well_formed n) ->
  fst (load_notebook_names env1 st1) = Ok tt
  /\ fst (load_notebook_names env2 st2) = Ok tt
  /\ mapping (snd (load_notebook_names env1 st1))
     = mapping (snd (load_notebook_names env2 st2))
  /\ shock_map (snd (load_notebook_names env1 st1))
     = shock_map (snd (load_notebook_names env2 st2)).
Proof.
  intros Hr1 Ha1 Hr2 Ha2 Hwf.
  destruct (load_notebook_names_answers env1 st1 r1 nodes Hr1 Ha1 Hwf)
    as (s1 & -> & _ & _ & _ & H1).
  destruct (load_notebook_names_answers env2 st2 r2 nodes Hr2 Ha2 Hwf)
    as (s2 & -> & _ & _ & _ & H2).
  simpl. split; [reflexivity|]. split; [reflexivity|]. split.
  - apply map_eq. intros u. destruct (H1 u) as [_ ->]. by destruct (H2 u) as [_ ->].
  - apply map_eq. intros u. destruct (H1 u) as [-> _]. by destruct (H2 u) as [-> _].
Qed.

Lemma X8_rebuild_depends_on_listing_only_witness :
  fst (load_notebook_names
         (sample_env (Responds (answer (Some [notes_b; notes_c]))) unreachable no_rank)
         (new_manager "http://shock" "")) = Ok tt
  /\ fst (load_notebook_names
            (sample_env (Responds (answer (Some [notes_b; notes_c]))) unreachable slot_rank)
            (sample_manager [("u1", june)])) = Ok tt
  /\ mapping (snd (load_notebook_names
                     (sample_env (Responds (answer (Some [notes_b; notes_c]))) unreachable
                        no_rank)
                     (new_manager "http://shock" "")))
     = mapping (snd (load_notebook_names
                       (sample_env (Responds (answer (Some [notes_b; notes_c]))) unreachable
                          slot_rank)
                       (sample_manager [("u1", june)])))
  /\ shock_map (snd (load_notebook_names
                       (sample_env (Responds (answer (Some [notes_b; notes_c]))) unreachable
                          no_rank)
                       (new_manager "http://shock" "")))
     = shock_map (snd (load_notebook_names
                         (sample_env (Responds (answer (Some [notes_b; notes_c])))
                            unreachable slot_rank)
                         (sample_manager [("u1", june)]))).
Proof.
  apply (X8_rebuild_depends_on_listing_only
           (sample_env (Responds (answer (Some [notes_b; notes_c]))) unreachable no_rank)
           (sample_env (Responds (answer (Some [notes_b; notes_c]))) unreachable slot_rank)
           (new_manager "http://shock" "") (sample_manager [("u1", june)])
           (answer (Some [notes_b; notes_c])) (answer (Some [notes_b; notes_c]))
           [notes_b; notes_c]).
  - reflexivity.
  - split; [reflexivity|]. split; [reflexivity|]. exists 200, None. split; reflexivity.
  - reflexivity.
  - split; [reflexivity|]. split; [reflexivity|]. exists 200, None. split; reflexivity.
  - intros n Hn Hs. each_listed Hn.
    all: repeat split; vm_compute; eexists; reflexivity.
Defined.

Lemma collect_version_missing_uuid nodes : forall acc st n,
  n ∈ nodes -> skipped n = false -> attributes n !! "uuid" = None ->
  fold_each nodes collect_version acc st = (Raise (KeyError "uuid"), st).
Proof.
  induction nodes as [|m nodes IH]; intros acc st n Hn Hs Hu.
  - by apply elem_of_nil in Hn.
  - cbn [fold_each]. unfold bind at 1, collect_version at 1.
    destruct (skipped m) eqn:Esk.
    + unfold ret at 1. apply (IH _ _ n); [|done..].
      apply elem_of_cons in Hn as [->|Hn]; [congruence | exact Hn].
    + unfold bind at 1, getitem.
      destruct (attributes m !! "uuid") as [um|] eqn:Eum; [|reflexivity].
      unfold ret at 1 2. apply (IH _ _ n); [|done..].
      apply elem_of_cons in Hn as [->|Hn]; [congruence | exact Hn].
Qed.

(** X9. A listed node that has a file, is not tagged as deleted and has no
    [uuid] attribute makes the whole rebuild fail with [KeyError]; no
    entry is recorded, also for the well-formed nodes of the listing. *)
Theorem X9_rebuild_fails_on_missing_uuid env st r nodes n :
  requests_get env (query_url st) = Responds r ->
  answers r (Some nodes) ->
  n ∈ nodes -> skipped n = false -> attributes n !! "uuid" = None ->
  load_notebook_names env st
  = (Raise (KeyError "uuid"), log_request (Get (query_url st)) (cleared st)).
Proof.
  intros Hr Hans Hn Hs Hu. rewrite load_notebook_names_unfold.
  rewrite (getShock_answers env _ _ r (Some nodes) Hr Hans).
  unfold bind. by rewrite (collect_version_missing_uuid nodes _ _ n Hn Hs Hu).
Qed.

Lemma X9_rebuild_fails_on_missing_uuid_witness :
  load_notebook_names
    (sample_env (Responds (answer (Some [june; anonymous]))) unreachable no_rank)
    (new_manager "http://shock" "")
  = (Raise (KeyError "uuid"),
     log_request (Get (query_url (new_manager "http://shock" "")))
       (cleared (new_manager "http://shock" ""))).
Proof.
  apply (X9_rebuild_fails_on_missing_uuid
           (sample_env (Responds (answer (Some [june; anonymous]))) unreachable no_rank)
           (new_manager "http://shock" "") (answer (Some [june; anonymous]))
           [june; anonymous] anonymous).
  - reflexivity.
  - split; [reflexivity|]. split; [reflexivity|]. exists 200, None. split; reflexivity.
  - right. left.
  - vm_compute; reflexivity.
  - vm_compute; reflexivity.
Defined.

Lemma keys_of_created_missing (vers : list node) (st : manager) n :
  n ∈ vers -> attributes n !! "created" = None ->
  keys_of (fun x => getitem (attributes x) "created") vers st
  = (Raise (KeyError "created"), st).
Proof.
  induction vers as [|m vers IH]; intros Hn Hc; [by apply elem_of_nil in Hn|].
  cbn [keys_of]. unfold bind at 1. unfold getitem at 1.
  destruct (attributes m !! "created") as [c|] eqn:Em; [|reflexivity].
  apply elem_of_cons in Hn as [->|Hn]; [congruence|].
  unfold ret at 1. unfold bind at 1. by rewrite IH.
Qed.

Lemma record_latest_missing_created u vers st n :
  n ∈ vers -> attributes n !! "created" = None ->
  record_latest (u, vers) st = (Raise (KeyError "created"), st).
Proof.
  intros Hn Hc. unfold record_latest, sorted_by. unfold bind at 1 2.
  by rewrite (keys_of_created_missing vers st n Hn Hc).
Qed.

(** The second loop stops at the first uuid of which a version has no
    [created] attribute; when the names are there, nothing else stops
    it. *)
Lemma for_each_missing_created its : forall st,
  (forall u vers, (u, vers) ∈ its ->
     vers <> [] /\ forall n, n ∈ vers -> is_Some (attributes n !! "name")) ->
  (exists u vers n, (u, vers) ∈ its /\ n ∈ vers /\ attributes n !! "created" = None) ->
  fst (for_each its record_latest st) = Raise (KeyError "created").
Proof.
  induction its as [|[u0 v0] its IH]; intros st Hok (u & vers & n & Hin & Hn & Hc).
  - by apply elem_of_nil in Hin.
  - cbn [for_each]. unfold bind.
    destruct (decide (Forall (fun m => is_Some (attributes m !! "created")) v0))
      as [Hall|Hsome].
    + rewrite Forall_forall in Hall.
      destruct (Hok u0 v0 (list_elem_of_here _ _)) as [Hne Hnames].
      destruct (latest_is_Some v0 Hne) as [w Hw].
      destruct (Hnames w (latest_elem_of _ _ Hw)) as [nm Hnm].
      rewrite (record_latest_ok u0 v0 st w nm Hall Hw Hnm).
      apply IH.
      * intros u' vers' H. apply (Hok u' vers'). by right.
      * apply elem_of_cons in Hin as [Heq|Hin]; [|by eauto 6].
        injection Heq as -> ->. destruct (Hall n Hn) as [c Hc']. rewrite Hc in Hc'.
        discriminate Hc'.
    + apply not_Forall_Exists in Hsome; [|apply _].
      apply Exists_exists in Hsome as (m & Hm & Hmc).
      rewrite (record_latest_missing_created u0 v0 st m Hm); [reflexivity|].
      by apply eq_None_not_Some.
Qed.

(** X10. A listed node that has a file, is not tagged as deleted and has
    no [created] attribute makes the whole rebuild fail with [KeyError],
    when the kept nodes have a uuid and a name: the sort of the versions
    of its uuid reads the attribute of every version, also when the node
    is the only version. *)
Theorem X10_rebuild_fails_on_missing_created env st r nodes n :
  requests_get env (query_url st) = Responds r ->
  answers r (Some nodes) ->
  (forall m, m ∈ nodes -> skipped m = false ->
     is_Some (attributes m !! "uuid") /\ is_Some (attributes m !! "name")) ->
  n ∈ nodes -> skipped n = false -> attributes n !! "created" = None ->
  fst (load_notebook_names env st) = Raise (KeyError "created").
Proof.
  intros Hr Hans Hwf Hn Hs Hc. rewrite load_notebook_names_unfold.
  rewrite (getShock_answers env _ _ r (Some nodes) Hr Hans).
  unfold bind at 1.
  destruct (collect_versions nodes ∅ (log_request (Get (query_url st)) (cleared st)))
    as (nb_vers & -> & Hvers).
  { intros m Hm Hsm. by destruct (Hwf m Hm Hsm). }
  assert (forall u, nb_vers !! u
            = if decide (versions u nodes = []) then None else Some (versions u nodes))
    as Hnb.
  { intros u. rewrite Hvers, lookup_empty. reflexivity. }
  apply for_each_missing_created.
  - intros u vers Hu. apply elem_of_dict_items in Hu. rewrite Hnb in Hu.
    destruct (decide (versions u nodes = [])) as [|Hne]; [discriminate|].
    injection Hu as <-. split; [exact Hne|].
    intros m Hm. apply elem_of_versions in Hm as [Hm [Hsm _]].
    by destruct (Hwf m Hm Hsm).
  - destruct (Hwf n Hn Hs) as [[u Hu] _].
    assert (n ∈ versions u nodes) as Hnv by (apply elem_of_versions; by repeat split).
    exists u, (versions u nodes), n. split; [|by split].
    apply elem_of_dict_items. rewrite Hnb, decide_False; [reflexivity|].
    intros He. rewrite He in Hnv. by apply elem_of_nil in Hnv.
Qed.

Lemma X10_rebuild_fails_on_missing_created_witness :
  fst (load_notebook_names
         (sample_env (Responds (answer (Some [june; undated]))) unreachable no_rank)
         (new_manager "http://shock" ""))
  = Raise (KeyError "created").
Proof.
  apply (X10_rebuild_fails_on_missing_created
           (sample_env (Responds (answer (Some [june; undated]))) unreachable no_rank)
           (new_manager "http://shock" "") (answer (Some [june; undated]))
           [june; undated] undated).
  - reflexivity.
  - split; [reflexivity|]. split; [reflexivity|]. exists 200, None. split; reflexivity.
  - intros m Hm Hs. each_listed Hm.
    all: split; vm_compute; eexists; reflexivity.
  - right. left.
  - vm_compute; reflexivity.
  - vm_compute; reflexivity.
Defined.

Lemma string_ltb_leb_false (a b : string) :
  String.ltb a b = true -> String.leb b a = false.
Proof.
  unfold String.ltb, String.leb. rewrite (String.compare_antisym a b).
  destruct (String.compare b a); simpl; congruence.
Qed.

Lemma string_ltb_irrefl_pair (a b : string) :
  String.ltb a b = true -> String.ltb b a = true -> False.
Proof.
  unfold String.ltb. rewrite (String.compare_antisym a b).
  destruct (String.compare b a); simpl; congruence.
Qed.

(** X11. Latest wins, wherever it is listed: when one kept version of a
    uuid is created strictly later than every other kept version of that
    uuid, the rebuild records that version and its name. *)
Theorem X11_strictly_latest_version_wins env st r nodes u n :
  requests_get env (query_url st) = Responds r ->
  answers r (Some nodes) ->
  (forall m, m ∈ nodes -> skipped m = false -> well_formed m) ->
  n ∈ nodes -> kept u n ->
  (forall m, m ∈ nodes -> kept u m -> m <> n ->
     String.ltb (created m) (created n) = true) ->
  shock_map (snd (load_notebook_names env st)) !! u = Some n
  /\ mapping (snd (load_notebook_names env st)) !! u = attributes n !! "name".
Proof.
  intros Hr Hans Hwf Hn Hk Hmax.
  destruct (load_notebook_names_answers env st r nodes Hr Hans Hwf)
    as (st' & -> & _ & _ & _ & Hmaps).
  simpl. destruct (Hmaps u) as [Hs Hm]. rewrite Hs, Hm.
  assert (is_Some (latest (versions u nodes))) as [w Hw].
  { apply latest_is_Some_iff, elem_of_kept_uuids. by exists n. }
  rewrite Hw. simpl.
  destruct (decide (w = n)) as [->|Hne]; [done|]. exfalso.
  destruct (latest_versions_latest_of u nodes w Hw) as (l1 & l2 & -> & Hkw & H1 & H2).
  assert (String.ltb (created w) (created n) = true) as Hlt.
  { apply Hmax; [|exact Hkw|exact Hne]. apply elem_of_app. right. by left. }
  apply elem_of_app in Hn as [Hn|Hn].
  - apply (string_ltb_irrefl_pair _ _ Hlt). by apply H1.
  - apply elem_of_cons in Hn as [->|Hn]; [done|].
    pose proof (H2 n Hn Hk) as Hle. rewrite (string_ltb_leb_false _ _ Hlt) in Hle.
    discriminate.
Qed.

Lemma X11_strictly_latest_version_wins_witness :
  shock_map (snd (load_notebook_names
                    (sample_env (Responds (answer (Some [june; january; tombstone])))
                       unreachable no_rank)
                    (new_manager "http://shock" ""))) !! "u1" = Some june
  /\ mapping (snd (load_notebook_names
                     (sample_env (Responds (answer (Some [june; january; tombstone])))
                        unreachable no_rank)
                     (new_manager "http://shock" ""))) !! "u1"
     = attributes june !! "name".
Proof.
  apply (X11_strictly_latest_version_wins
           (sample_env (Responds (answer (Some [june; january; tombstone])))
              unreachable no_rank)
           (new_manager "http://shock" "") (answer (Some [june; january; tombstone]))
           [june; january; tombstone] "u1" june).
  - reflexivity.
  - split; [reflexivity|]. split; [reflexivity|]. exists 200, None. split; reflexivity.
  - intros m Hm Hs. each_listed Hm; try (vm_compute in Hs; discriminate Hs).
    all: repeat split; vm_compute; eexists; reflexivity.
  - left.
  - split; vm_compute; reflexivity.
  - intros m Hm [Hs Hu] Hne. each_listed Hm.
    + contradiction.
    + vm_compute; reflexivity.
    + vm_compute in Hs. discriminate Hs.
Defined.

(** ** Further properties of reading *)

(** X12. When the download of the node of an existing notebook fails,
    whatever the error (the store cannot be reached, the status is not a
    success, the body is empty), the read raises [HTTPError(500)]; one
    GET has been sent, to the download URL of the node recorded for the
    notebook. *)
Theorem X12_read_download_failure_is_500 env id st n e :
  notebook_exists id st = true ->
  shock_map st !! id = Some n ->
  fst (getShock env (download_url st n) "data" st) = Raise e ->
  read_notebook_object env id st
  = (Raise (HTTPError 500 "Notebook cannot be read"),
     log_request (Get (download_url st n)) st).
Proof.
  intros Hex Hn He. rewrite (read_notebook_object_unfold env id st n Hex Hn). cbn zeta.
  unfold download_url in He. rewrite He. reflexivity.
Qed.

Lemma X12_read_download_failure_is_500_witness :
  read_notebook_object (sample_env (Responds not_found_page) unreachable no_rank) "u1"
    (sample_manager [("u1", june)])
  = (Raise (HTTPError 500 "Notebook cannot be read"),
     log_request (Get (download_url (sample_manager [("u1", june)]) june))
       (sample_manager [("u1", june)])).
Proof.
  apply (X12_read_download_failure_is_500
           (sample_env (Responds not_found_page) unreachable no_rank) "u1"
           (sample_manager [("u1", june)]) june RequestsHTTPError).
  - vm_compute; reflexivity.
  - vm_compute; reflexivity.
  - vm_compute; reflexivity.
Defined.

(** X13. When the node is downloaded and its body is not a notebook that
    the codec reads, the read raises [HTTPError(500)] for unreadable
    JSON. *)
Theorem X13_read_undecodable_is_500 env id st n r :
  notebook_exists id st = true ->
  shock_map st !! id = Some n ->
  requests_get env (download_url st n) = Responds r ->
  ok r = true -> truthy (text r) = true ->
  current_reads env (text r) = None ->
  read_notebook_object env id st
  = (Raise (HTTPError 500 "Unreadable JSON notebook"),
     log_request (Get (download_url st n)) st).
Proof.
  intros Hex Hn Hr Hok Htext Hnb.
  rewrite (read_notebook_object_unfold env id st n Hex Hn). cbn zeta.
  unfold download_url in Hr. rewrite (getShock_data env _ st r Hr Hok Htext). cbn [fst].
  rewrite Hnb. reflexivity.
Qed.

(** Collaborators as [sample_env], with a codec that reads nothing and a
    parser of dates that parses nothing. *)
Lemma X13_read_undecodable_is_500_witness :
  read_notebook_object
    {| requests_get := fun _ => Responds (Response true "not json" None);
       requests_post := fun _ _ _ => unreachable;
       current_reads := fun _ => None;
       current_writes := fun nb => Some (worksheets nb);
       json_dumps := fun _ => "{}";
       dateutil_parse := fun _ => None;
       now_isoformat := "2014-01-01T00:00:00";
       uuid4 := "0b1a";
       dict_rank := no_rank |}
    "u1" (sample_manager [("u1", june)])
  = (Raise (HTTPError 500 "Unreadable JSON notebook"),
     log_request (Get (download_url (sample_manager [("u1", june)]) june))
       (sample_manager [("u1", june)])).
Proof.
  apply (X13_read_undecodable_is_500 _ "u1" (sample_manager [("u1", june)]) june
           (Response true "not json" None)).
  - vm_compute; reflexivity.
  - vm_compute; reflexivity.
  - reflexivity.
  - reflexivity.
  - reflexivity.
  - reflexivity.
Defined.

(** X14. When the notebook is downloaded and decoded and the [created]
    attribute of its node is a non-empty string that is not a date, the
    read fails with [ValueError], the error of the parser: the date is
    parsed outside the [try] blocks, so this failure is not turned into an
    [HTTPError]. *)
Theorem X14_read_unparsable_date_raises_ValueError env id st n r nb dt :
  notebook_exists id st = true ->
  shock_map st !! id = Some n ->
  requests_get env (download_url st n) = Responds r ->
  ok r = true -> truthy (text r) = true ->
  current_reads env (text r) = Some nb ->
  attributes n !! "created" = Some dt -> dt <> "" ->
  dateutil_parse env dt = None ->
  read_notebook_object env id st
  = (Raise ValueError, log_request (Get (download_url st n)) st).
Proof.
  intros Hex Hn Hr Hok Htext Hnb Hdt Hne Hparse.
  rewrite (read_notebook_object_unfold env id st n Hex Hn). cbn zeta.
  unfold download_url in Hr. rewrite (getShock_data env _ st r Hr Hok Htext). cbn [fst].
  apply truthy_true in Hne. rewrite Hnb, Hdt, Hne, Hparse. reflexivity.
Qed.

Lemma X14_read_unparsable_date_raises_ValueError_witness :
  read_notebook_object
    {| requests_get := fun _ => Responds (Response true "cells" None);
       requests_post := fun _ _ _ => unreachable;
       current_reads := fun s => Some (Notebook ∅ s);
       current_writes := fun nb => Some (worksheets nb);
       json_dumps := fun _ => "{}";
       dateutil_parse := fun _ => None;
       now_isoformat := "2014-01-01T00:00:00";
       uuid4 := "0b1a";
       dict_rank := no_rank |}
    "u1" (sample_manager [("u1", june)])
  = (Raise ValueError,
     log_request (Get (download_url (sample_manager [("u1", june)]) june))
       (sample_manager [("u1", june)])).
Proof.
  apply (X14_read_unparsable_date_raises_ValueError _ "u1"
           (sample_manager [("u1", june)]) june (Response true "cells" None)
           (Notebook ∅ "cells") "2012-06-01T00:00:00").
  - vm_compute; reflexivity.
  - vm_compute; reflexivity.
  - reflexivity.
  - reflexivity.
  - reflexivity.
  - reflexivity.
  - vm_compute; reflexivity.
  - discriminate.
  - reflexivity.
Defined.

(** X15. Whatever its outcome, a read leaves the two maps, the URL and the
    user as they are, and sends at most one request: nothing when the
    notebook does not exist, otherwise the GET of the download URL of its
    node. *)
Theorem X15_read_changes_nothing env id st :
  mapping (snd (read_notebook_object env id st)) = mapping st
  /\ shock_map (snd (read_notebook_object env id st)) = shock_map st
  /\ shock_url (snd (read_notebook_object env id st)) = shock_url st
  /\ shock_user (snd (read_notebook_object env id st)) = shock_user st
  /\ (notebook_exists id st = false ->
      read_notebook_object env id st
      = (Raise (HTTPError 404 "Notebook does not exist"), st))
  /\ (notebook_exists id st = true ->
      exists n, shock_map st !! id = Some n
        /\ sent (snd (read_notebook_object env id st))
           = Get (download_url st n) :: sent st).
Proof.
  destruct (notebook_exists id st) eqn:Hex.
  - pose proof Hex as Hex'. apply notebook_exists_true in Hex' as [_ Hs].
    apply elem_of_dom in Hs as [n Hn].
    rewrite (read_notebook_object_unfold env id st n Hex Hn). cbn zeta.
    assert (forall r : result (last_modified * notebook),
              sent (snd (r, log_request (Get (download_url st n)) st))
              = Get (download_url st n) :: sent st) as Hsent by reflexivity.
    unfold download_url in *.
    destruct (fst (getShock env _ "data" st)) as [[txt|d]|e].
    2,3: repeat split; try reflexivity; try discriminate; intros _; by exists n.
    destruct (current_reads env txt).
    2: repeat split; try reflexivity; try discriminate; intros _; by exists n.
    destruct (attributes n !! "created") as [dt|].
    2: repeat split; try reflexivity; try discriminate; intros _; by exists n.
    destruct (truthy dt).
    2: repeat split; try reflexivity; try discriminate; intros _; by exists n.
    destruct (dateutil_parse env dt);
      repeat split; try reflexivity; try discriminate; intros _; by exists n.
  - rewrite read_notebook_object_missing by done.
    repeat split; try reflexivity; discriminate.
Qed.

(** ** Further properties of writing *)

(** X16. A document without a name is refused with [HTTPError(400)] before
    anything else happens: no identifier is minted, the object is not
    stamped, the manager is unchanged and nothing is sent, with or without
    an identifier. *)
Theorem X16_write_without_name_is_400 env oid nb st :
  metadata nb !! "name" = None ->
  write_notebook_object env oid (nb, st)
  = (Raise (HTTPError 400 "Missing notebook name"), (nb, st)).
Proof. intros Hnm. by rewrite write_notebook_object_unfold, Hnm. Qed.

Lemma X16_write_without_name_is_400_witness :
  write_notebook_object (sample_env unreachable (Responds (answer june)) no_rank) None
    (Notebook ∅ "cells", sample_manager [("u1", june)])
  = (Raise (HTTPError 400 "Missing notebook name"),
     (Notebook ∅ "cells", sample_manager [("u1", june)])).
Proof.
  apply (X16_write_without_name_is_400
           (sample_env unreachable (Responds (answer june)) no_rank) None
           (Notebook ∅ "cells") (sample_manager [("u1", june)])).
  reflexivity.
Defined.

(** X17. The outcomes of a write. It returns the identifier it was given,
    or the minted one when it was given none; otherwise it raises one of
    three [HTTPError]s and no other exception: 400 for a missing name,
    404 for an identifier that it was given and that is not in the
    mapping, 400 for a failed save. *)
Theorem X17_write_outcomes env oid nb st :
  match fst (write_notebook_object env oid (nb, st)) with
  | Ok id => id = default (uuid4 env) oid /\ is_Some (metadata nb !! "name")
  | Raise e =>
      (e = HTTPError 400 "Missing notebook name" /\ metadata nb !! "name" = None)
      \/ (e = HTTPError 404 "Notebook does not exist"
          /\ exists id, oid = Some id /\ mapping st !! id = None)
      \/ e = HTTPError 400 "Unexpected error while saving notebook"
  end.
Proof.
  rewrite write_notebook_object_unfold.
  destruct (metadata nb !! "name") as [nm|] eqn:Hnm; [|by left]. cbn zeta.
  destruct oid as [id|]; simpl default.
  - destruct (bool_decide (is_Some (mapping st !! id))) eqn:Hb.
    + destruct (current_writes env _) as [data|]; [|by right; right].
      destruct (postShock env _ nm data _ st) as [[n|e] st2]; simpl;
        [by eauto | by right; right].
    + simpl. right. left. split; [reflexivity|]. exists id. split; [reflexivity|].
      apply bool_decide_eq_false in Hb. by apply eq_None_not_Some.
  - assert (bool_decide (is_Some (mapping (set_mapping (insert (uuid4 env) nm) st)
                                    !! uuid4 env)) = true) as ->.
    { apply bool_decide_eq_true_2. simpl. rewrite lookup_insert_eq. by eexists. }
    destruct (current_writes env _) as [data|]; [|by right; right].
    destruct (postShock env _ nm data _ _) as [[n|e] st2]; simpl;
      [by eauto | by right; right].
Qed.

Lemma write_notebook_object_accepted env nb nm id st data r n :
  metadata nb !! "name" = Some nm ->
  is_Some (mapping st !! id) ->
  current_writes env (stamped env (shock_user st) id nb) = Some data ->
  requests_post env (shock_url st ++ "/node") (nm ++ ".ipynb", data)
    (nm ++ "_metadata.json",
     json_dumps env (metadata (stamped env (shock_user st) id nb)))
  = Responds r ->
  accepted r n ->
  write_notebook_object env (Some id) (nb, st)
  = (Ok id,
     (stamped env (shock_user st) id nb,
      Manager (shock_url st) (shock_user st)
        (<[id := nm]> (mapping st)) (<[id := n]> (shock_map st))
        (post_request (shock_url st ++ "/node") nm data
           (json_dumps env (metadata (stamped env (shock_user st) id nb)))
         :: sent st))).
Proof.
  intros Hnm Hid Hdata Hr Hacc.
  rewrite write_notebook_object_unfold, Hnm. cbn zeta. simpl default.
  rewrite (bool_decide_eq_true_2 _ Hid), Hdata.
  rewrite (postShock_accepted env _ nm data _ st r n Hr Hacc). reflexivity.
Qed.

(** X18. A write with an identifier of the mapping, when the codec encodes
    the document and the store accepts it: one POST is sent to
    [shock_url+'/node'] with the document as [name.ipynb] and the dumped
    metadata of the stamped object as [name_metadata.json]; the
    identifier is returned, its entry in the mapping is the name of the
    document, its entry in [shock_map] is the node that the store
    returned, the other entries are as they were, and the notebook exists,
    also if it had no entry in [shock_map] before. *)
Theorem X18_write_replaces_entry env nb nm id st data r n :
  metadata nb !! "name" = Some nm ->
  is_Some (mapping st !! id) ->
  current_writes env (stamped env (shock_user st) id nb) = Some data ->
  requests_post env (shock_url st ++ "/node") (nm ++ ".ipynb", data)
    (nm ++ "_metadata.json",
     json_dumps env (metadata (stamped env (shock_user st) id nb)))
  = Responds r ->
  accepted r n ->
  write_notebook_object env (Some id) (nb, st)
  = (Ok id,
     (stamped env (shock_user st) id nb,
      Manager (shock_url st) (shock_user st)
        (<[id := nm]> (mapping st)) (<[id := n]> (shock_map st))
        (post_request (shock_url st ++ "/node") nm data
           (json_dumps env (metadata (stamped env (shock_user st) id nb)))
         :: sent st)))
  /\ notebook_exists id
       (snd (snd (write_notebook_object env (Some id) (nb, st)))) = true.
Proof.
  intros Hnm Hid Hdata Hr Hacc.
  rewrite (write_notebook_object_accepted env nb nm id st data r n Hnm Hid Hdata Hr Hacc).
  split; [reflexivity|].
  apply notebook_exists_true. simpl. rewrite !dom_insert_L. set_solver.
Qed.

Lemma X18_write_replaces_entry_witness :
  write_notebook_object (sample_env unreachable (Responds (answer june)) no_rank)
    (Some "u1") (sample_notebook, sample_manager [("u1", january)])
  = (Ok "u1",
     (stamped (sample_env unreachable (Responds (answer june)) no_rank) "" "u1"
        sample_notebook,
      Manager "http://shock" ""
        (<["u1" := "analysis"]> (mapping (sample_manager [("u1", january)])))
        (<["u1" := june]> (shock_map (sample_manager [("u1", january)])))
        (post_request "http://shock/node" "analysis" "cells" "{}"
         :: sent (sample_manager [("u1", january)]))))
  /\ notebook_exists "u1"
       (snd (snd (write_notebook_object
                    (sample_env unreachable (Responds (answer june)) no_rank)
                    (Some "u1") (sample_notebook, sample_manager [("u1", january)]))))
     = true.
Proof.
  apply (X18_write_replaces_entry
           (sample_env unreachable (Responds (answer june)) no_rank)
           sample_notebook "analysis" "u1" (sample_manager [("u1", january)])
           "cells" (answer june) june).
  - vm_compute; reflexivity.
  - vm_compute; eexists; reflexivity.
  - reflexivity.
  - reflexivity.
  - split; [reflexivity|]. exists 200, None. split; reflexivity.
Defined.

(** X19. A write with an identifier of the mapping that does not return
    has raised the 400 error of a failed save and has left both maps as
    they were; the caller's object has been stamped. *)
Theorem X19_failed_write_keeps_maps env nb nm id st :
  metadata nb !! "name" = Some nm ->
  is_Some (mapping st !! id) ->
  completed (fst (write_notebook_object env (Some id) (nb, st))) = false ->
  fst (write_notebook_object env (Some id) (nb, st))
  = Raise (HTTPError 400 "Unexpected error while saving notebook")
  /\ fst (snd (write_notebook_object env (Some id) (nb, st)))
     = stamped env (shock_user st) id nb
  /\ mapping (snd (snd (write_notebook_object env (Some id) (nb, st)))) = mapping st
  /\ shock_map (snd (snd (write_notebook_object env (Some id) (nb, st))))
     = shock_map st.
Proof.
  intros Hnm Hid. rewrite write_notebook_object_unfold, Hnm. cbn zeta. simpl default.
  rewrite (bool_decide_eq_true_2 _ Hid).
  destruct (current_writes env _) as [data|]; [|by intros _].
  pose proof (postShock_state env (shock_url st ++ "/node") nm data
                (json_dumps env (metadata (stamped env (shock_user st) id nb))) st) as Hst.
  destruct (postShock env _ nm data _ st) as [[n|e] st2]; simpl in Hst; subst st2;
    [discriminate | by intros _].
Qed.

Lemma X19_failed_write_keeps_maps_witness :
  fst (write_notebook_object (sample_env unreachable (Responds (store_error june)) no_rank)
         (Some "u1") (sample_notebook, sample_manager [("u1", january)]))
  = Raise (HTTPError 400 "Unexpected error while saving notebook")
  /\ fst (snd (write_notebook_object
                 (sample_env unreachable (Responds (store_error june)) no_rank)
                 (Some "u1") (sample_notebook, sample_manager [("u1", january)])))
     = stamped (sample_env unreachable (Responds (store_error june)) no_rank) "" "u1"
         sample_notebook
  /\ mapping (snd (snd (write_notebook_object
                          (sample_env unreachable (Responds (store_error june)) no_rank)
                          (Some "u1") (sample_notebook, sample_manager [("u1", january)]))))
     = mapping (sample_manager [("u1", january)])
  /\ shock_map (snd (snd (write_notebook_object
                            (sample_env unreachable (Responds (store_error june)) no_rank)
                            (Some "u1")
                            (sample_notebook, sample_manager [("u1", january)]))))
     = shock_map (sample_manager [("u1", january)]).
Proof.
  apply (X19_failed_write_keeps_maps
           (sample_env unreachable (Responds (store_error june)) no_rank)
           sample_notebook "analysis" "u1" (sample_manager [("u1", january)])).
  - vm_compute; reflexivity.
  - vm_compute; eexists; reflexivity.
  - vm_compute; reflexivity.
Defined.

(** ** Further properties of deleting and listing *)

Lemma elem_of_list_notebooks env st i nm :
  NbInfo i nm ∈ sorted String.leb name false
                  ((fun kv => NbInfo (fst kv) (snd kv))
                     <$> dict_items (dict_rank env) (mapping st))
  <-> mapping st !! i = Some nm.
Proof.
  rewrite sorted_elem_of, list_elem_of_fmap. split.
  - intros ([j n] & [= -> ->] & H). by apply elem_of_dict_items in H.
  - intros H. exists (i, nm). split; [reflexivity|]. by apply elem_of_dict_items.
Qed.

(** X20. [delete_notebook_id] deletes from the mapping first, then from
    [shock_map]. For an identifier that has no entry in [shock_map] it
    raises [KeyError]; if the identifier had an entry in the mapping,
    that entry has been removed all the same. *)
Theorem X20_delete_notebook_id_is_not_atomic id st :
  shock_map st !! id = None ->
  delete_notebook_id id st
  = (Raise (KeyError id),
     match mapping st !! id with
     | Some _ => set_mapping (fun _ => delete id (mapping st)) st
     | None => st
     end).
Proof.
  intros Hs. unfold delete_notebook_id, delitem.
  cbv beta iota zeta delta [bind ret raise gets modify].
  destruct (mapping st !! id) as [nm|]; [|reflexivity]. cbn. rewrite Hs. reflexivity.
Qed.

Lemma X20_delete_notebook_id_is_not_atomic_witness :
  delete_notebook_id "0b1a"
    (snd (snd (write_notebook_object (sample_env unreachable unreachable no_rank) None
                 (sample_notebook, new_manager "http://shock" ""))))
  = (Raise (KeyError "0b1a"),
     match mapping (snd (snd (write_notebook_object
                                (sample_env unreachable unreachable no_rank) None
                                (sample_notebook, new_manager "http://shock" ""))))
             !! "0b1a" with
     | Some _ =>
         set_mapping
           (fun _ => delete "0b1a"
                       (mapping (snd (snd (write_notebook_object
                                             (sample_env unreachable unreachable no_rank)
                                             None
                                             (sample_notebook,
                                              new_manager "http://shock" ""))))))
           (snd (snd (write_notebook_object (sample_env unreachable unreachable no_rank)
                        None (sample_notebook, new_manager "http://shock" ""))))
     | None =>
         snd (snd (write_notebook_object (sample_env unreachable unreachable no_rank) None
                     (sample_notebook, new_manager "http://shock" "")))
     end).
Proof.
  apply (X20_delete_notebook_id_is_not_atomic "0b1a"
           (snd (snd (write_notebook_object (sample_env unreachable unreachable no_rank)
                        None (sample_notebook, new_manager "http://shock" ""))))).
  vm_compute; reflexivity.
Defined.

(** X21. An identifier that is in the mapping and not in [shock_map] (what
    a failed write of a new document leaves) is listed with its name,
    but it cannot be read and it cannot be deleted: both raise the 404
    error and change nothing. *)
Theorem X21_entry_without_node env id nm st :
  mapping st !! id = Some nm ->
  shock_map st !! id = None ->
  (exists data, list_notebooks env st = (Ok data, st) /\ NbInfo id nm ∈ data)
  /\ read_notebook_object env id st
     = (Raise (HTTPError 404 "Notebook does not exist"), st)
  /\ delete_notebook id st = (Raise (HTTPError 404 "Notebook does not exist"), st).
Proof.
  intros Hm Hs.
  assert (notebook_exists id st = false) as Hex.
  { unfold notebook_exists. rewrite Hs.
    rewrite (bool_decide_eq_false_2 (is_Some None)) by (intros [? ?]; discriminate).
    apply andb_false_r. }
  split; [|split].
  - rewrite list_notebooks_unfold. eexists. split; [reflexivity|].
    by apply elem_of_list_notebooks.
  - by apply read_notebook_object_missing.
  - by rewrite delete_notebook_unfold, Hex.
Qed.

Lemma X21_entry_without_node_witness :
  (exists data,
     list_notebooks (sample_env unreachable unreachable no_rank)
       (snd (snd (write_notebook_object (sample_env unreachable unreachable no_rank) None
                    (sample_notebook, new_manager "http://shock" ""))))
     = (Ok data,
        snd (snd (write_notebook_object (sample_env unreachable unreachable no_rank) None
                    (sample_notebook, new_manager "http://shock" ""))))
     /\ NbInfo "0b1a" "analysis" ∈ data)
  /\ read_notebook_object (sample_env unreachable unreachable no_rank) "0b1a"
       (snd (snd (write_notebook_object (sample_env unreachable unreachable no_rank) None
                    (sample_notebook, new_manager "http://shock" ""))))
     = (Raise (HTTPError 404 "Notebook does not exist"),
        snd (snd (write_notebook_object (sample_env unreachable unreachable no_rank) None
                    (sample_notebook, new_manager "http://shock" ""))))
  /\ delete_notebook "0b1a"
       (snd (snd (write_notebook_object (sample_env unreachable unreachable no_rank) None
                    (sample_notebook, new_manager "http://shock" ""))))
     = (Raise (HTTPError 404 "Notebook does not exist"),
        snd (snd (write_notebook_object (sample_env unreachable unreachable no_rank) None
                    (sample_notebook, new_manager "http://shock" "")))).
Proof.
  apply (X21_entry_without_node (sample_env unreachable unreachable no_rank) "0b1a"
           "analysis"
           (snd (snd (write_notebook_object (sample_env unreachable unreachable no_rank)
                        None (sample_notebook, new_manager "http://shock" ""))))).
  - vm_compute; reflexivity.
  - vm_compute; reflexivity.
Defined.

(** X22. After a notebook has been deleted, and until the next rebuild, it
    is not listed any more, and a read, a second delete and a write under
    its identifier all raise the 404 error. *)
Theorem X22_deleted_notebook_is_gone env id st nb nm :
  notebook_exists id st = true ->
  metadata nb !! "name" = Some nm ->
  exists st1,
    delete_notebook id st = (Ok tt, st1)
    /\ (exists data, list_notebooks env st1 = (Ok data, st1)
          /\ forall info, info ∈ data -> notebook_id info <> id)
    /\ read_notebook_object env id st1
       = (Raise (HTTPError 404 "Notebook does not exist"), st1)
    /\ delete_notebook id st1 = (Raise (HTTPError 404 "Notebook does not exist"), st1)
    /\ fst (write_notebook_object env (Some id) (nb, st1))
       = Raise (HTTPError 404 "Notebook does not exist").
Proof.
  intros Hex Hnm. rewrite delete_notebook_unfold, Hex.
  set (st1 := set_shock_map (delete id) (set_mapping (delete id) st)).
  assert (mapping st1 !! id = None) as Hm by apply lookup_delete_eq.
  assert (notebook_exists id st1 = false) as Hex1.
  { unfold notebook_exists. rewrite Hm.
    by rewrite (bool_decide_eq_false_2 (is_Some None)) by (intros [? ?]; discriminate). }
  exists st1. split; [reflexivity|]. split; [|split; [|split]].
  - rewrite list_notebooks_unfold. eexists. split; [reflexivity|].
    intros [i n] Hin Hi. simpl in Hi. subst i.
    apply elem_of_list_notebooks in Hin. congruence.
  - by apply read_notebook_object_missing.
  - by rewrite delete_notebook_unfold, Hex1.
  - rewrite write_notebook_object_unfold, Hnm. cbn zeta. simpl default. rewrite Hm.
    by rewrite (bool_decide_eq_false_2 (is_Some None)) by (intros [? ?]; discriminate).
Qed.

Lemma X22_deleted_notebook_is_gone_witness :
  exists st1,
    delete_notebook "u1" (sample_manager [("u1", june)]) = (Ok tt, st1)
    /\ (exists data,
          list_notebooks (sample_env unreachable unreachable no_rank) st1 = (Ok data, st1)
          /\ forall info, info ∈ data -> notebook_id info <> "u1")
    /\ read_notebook_object (sample_env unreachable unreachable no_rank) "u1" st1
       = (Raise (HTTPError 404 "Notebook does not exist"), st1)
    /\ delete_notebook "u1" st1
       = (Raise (HTTPError 404 "Notebook does not exist"), st1)
    /\ fst (write_notebook_object (sample_env unreachable unreachable no_rank)
              (Some "u1") (sample_notebook, st1))
       = Raise (HTTPError 404 "Notebook does not exist").
Proof.
  apply (X22_deleted_notebook_is_gone (sample_env unreachable unreachable no_rank) "u1"
           (sample_manager [("u1", june)]) sample_notebook "analysis").
  - vm_compute; reflexivity.
  - vm_compute; reflexivity.
Defined.

(** X23. When no two notebooks have the same name, the list does not
    depend on the order in which the mapping is iterated: it is the list
    of the entries in the order of their names. *)
Theorem X23_list_is_determined_by_distinct_names env1 env2 st :
  distinct_names st ->
  list_notebooks env1 st = list_notebooks env2 st.
Proof.
  intros Hd. rewrite !list_notebooks_unfold. f_equal. f_equal.
  apply (StronglySorted_unique_strong
           (fun a b => String.leb (name a) (name b) = true)).
  - intros [i n] [j m] Hi Hj H1 H2.
    apply elem_of_list_notebooks in Hi, Hj. simpl in H1, H2.
    pose proof (String.leb_antisym _ _ H1 H2) as ->.
    by rewrite (Hd i j m Hi Hj).
  - apply (sorted_strongly String.leb name false String.leb_total string_leb_trans).
  - apply (sorted_strongly String.leb name false String.leb_total string_leb_trans).
  - rewrite !(sorted_perm String.leb name false).
    apply fmap_Permutation. by rewrite !dict_items_perm.
Qed.

Lemma X23_list_is_determined_by_distinct_names_witness :
  list_notebooks (sample_env unreachable unreachable no_rank)
    (sample_manager [("b", notes_b); ("c", june)])
  = list_notebooks (sample_env unreachable unreachable slot_rank)
      (sample_manager [("b", notes_b); ("c", june)]).
Proof.
  apply (X23_list_is_determined_by_distinct_names
           (sample_env unreachable unreachable no_rank)
           (sample_env unreachable unreachable slot_rank)
           (sample_manager [("b", notes_b); ("c", june)])).
  intros i j nm Hi Hj.
  assert (forall k v, mapping (sample_manager [("b", notes_b); ("c", june)]) !! k = Some v ->
            (k = "b" /\ v = "notes") \/ (k = "c" /\ v = "final")) as Hcases.
  { intros k v H. apply elem_of_map_to_list in H. vm_compute map_to_list in H.
    apply elem_of_cons in H as [H|H]; [injection H as -> ->; auto|].
    apply elem_of_cons in H as [H|H]; [injection H as -> ->; auto|].
    by apply elem_of_nil in H. }
  destruct (Hcases i nm Hi) as [[-> ->]|[-> ->]], (Hcases j _ Hj) as [[-> E]|[-> E]];
    try reflexivity; discriminate E.
Defined.

(** ** Writing, then reading *)

(** X24. After a write under an identifier of the mapping that the store
    accepted, a read of that identifier downloads the node that the store
    returned for the write. When the store serves the content that was
    posted and the codec decodes it to the document that was encoded, the
    read returns the document as the write stamped it, with the date
    parsed from the [created] attribute of the returned node. *)
Theorem X24_write_then_read env1 env2 nb nm id st data r1 n r2 dt d :
  metadata nb !! "name" = Some nm ->
  is_Some (mapping st !! id) ->
  current_writes env1 (stamped env1 (shock_user st) id nb) = Some data ->
  requests_post env1 (shock_url st ++ "/node") (nm ++ ".ipynb", data)
    (nm ++ "_metadata.json",
     json_dumps env1 (metadata (stamped env1 (shock_user st) id nb)))
  = Responds r1 ->
  accepted r1 n ->
  requests_get env2 (download_url st n) = Responds r2 ->
  ok r2 = true -> text r2 = data -> data <> "" ->
  current_reads env2 data = Some (stamped env1 (shock_user st) id nb) ->
  attributes n !! "created" = Some dt -> dt <> "" ->
  dateutil_parse env2 dt = Some d ->
  read_notebook_object env2 id
    (snd (snd (write_notebook_object env1 (Some id) (nb, st))))
  = (Ok (Parsed d, stamped env1 (shock_user st) id nb),
     log_request (Get (download_url st n))
       (snd (snd (write_notebook_object env1 (Some id) (nb, st))))).
Proof.
  intros Hnm Hid Hdata Hr1 Hacc Hr2 Hok2 Htext Hne Hreads Hdt Hdne Hparse.
  rewrite (write_notebook_object_accepted env1 nb nm id st data r1 n Hnm Hid Hdata Hr1 Hacc).
  cbn [snd].
  set (st1 := Manager _ _ _ _ _).
  assert (notebook_exists id st1 = true) as Hex.
  { apply notebook_exists_true. simpl. rewrite !dom_insert_L. set_solver. }
  assert (shock_map st1 !! id = Some n) as Hn by apply lookup_insert_eq.
  rewrite (read_notebook_object_unfold env2 id st1 n Hex Hn). cbn zeta.
  change (shock_url st1) with (shock_url st). fold (download_url st n).
  apply truthy_true in Hne, Hdne. subst data.
  rewrite (getShock_data env2 _ st1 r2 Hr2 Hok2 Hne). cbn [fst].
  rewrite Hreads, Hdt, Hdne, Hparse. reflexivity.
Qed.

Lemma X24_write_then_read_witness :
  read_notebook_object serving_env "u1"
    (snd (snd (write_notebook_object accepting_env (Some "u1")
                 (sample_notebook, sample_manager [("u1", january)]))))
  = (Ok (Parsed (Datetime 2012 6 1 0 0 0 0),
         stamped accepting_env "" "u1" sample_notebook),
     log_request (Get (download_url (sample_manager [("u1", january)]) june))
       (snd (snd (write_notebook_object accepting_env (Some "u1")
                    (sample_notebook, sample_manager [("u1", january)]))))).
Proof.
  apply (X24_write_then_read accepting_env serving_env sample_notebook "analysis" "u1"
           (sample_manager [("u1", january)]) "cells" (answer june) june
           (Response true "cells" None) "2012-06-01T00:00:00").
  - vm_compute; reflexivity.
  - vm_compute; eexists; reflexivity.
  - reflexivity.
  - reflexivity.
  - split; [reflexivity|]. exists 200, None. split; reflexivity.
  - reflexivity.
  - reflexivity.
  - reflexivity.
  - discriminate.
  - reflexivity.
  - vm_compute; reflexivity.
  - discriminate.
  - reflexivity.
Defined.
